(** * BlogPosts: the backend's authorization and post/user services

    A shallow embedding of the Express/Mongoose backend: the [Post] model
    (models/Post.js), the [authorize] middleware (middleware/authorize.js),
    the post controller and service, the post routes and the auth service,
    together with the statements the specification makes about them. *)

From Stdlib Require Import ZArith Ascii.
From stdpp Require Import base option list gmap strings sorting.

Local Open Scope Z_scope.

(** ** JavaScript strings

    A text is a [string]; each character stands for one UTF-16 code unit in
    the range 0..255.  Code units above 255 are outside the embedding. *)

Module Js.

(** The white space and line terminator code units [String.prototype.trim]
    removes, as far as they are in range: TAB, LF, VT, FF, CR, SP, NBSP. *)
Definition is_white_space (a : ascii) : bool :=
  match a with
  | "009" | "010" | "011" | "012" | "013" | " " | "160" => true
  | _ => false
  end%char.

Fixpoint trimStart (s : string) : string :=
  match s with
  | "" => ""
  | String a s' => if is_white_space a then trimStart s' else s
  end.

Fixpoint trimEnd (s : string) : string :=
  match s with
  | "" => ""
  | String a s' =>
      match trimEnd s' with
      | "" => if is_white_space a then "" else String a ""
      | t => String a t
      end
  end.

Definition trim (s : string) : string := trimEnd (trimStart s).

(** Every code unit of [s] is white space ([s] may be empty). *)
Fixpoint blank (s : string) : bool :=
  match s with
  | "" => true
  | String a s' => is_white_space a && blank s'
  end.

(** Truthiness of a possibly [undefined] string: [!v] is [negb (truthy v)]. *)
Definition truthy (v : option string) : bool :=
  match v with
  | None | Some "" => false
  | Some _ => true
  end.

(** [Array.prototype.join] over strings. *)
Fixpoint join (sep : string) (l : list string) : string :=
  match l with
  | [] => ""
  | [x] => x
  | x :: l' => x +:+ sep +:+ join sep l'
  end.

End Js.

(** ** JSON values sent in a response body

    [JDate t] stands for the ISO-8601 rendering of the instant [t]
    (milliseconds since the epoch). *)

#[local] Set Warnings "-register-all".

Inductive Json :=
| JNull
| JBool (b : bool)
| JNum (n : Z)
| JStr (s : string)
| JDate (t : Z)
| JArr (items : list Json)
| JObj (fields : list (string * Json)).

Definition keys (j : Json) : list string :=
  match j with
  | JObj fields => fields.*1
  | _ => []
  end.

(** ** ObjectId

    An [ObjectId] is held as its canonical rendering: 24 lower-case
    hexadecimal digits, which is what [toString()] returns. *)

Definition ObjectId := string.

Definition toString (o : ObjectId) : string := o.

Definition is_hex (a : ascii) : bool :=
  match a with
  | "0" | "1" | "2" | "3" | "4" | "5" | "6" | "7" | "8" | "9"
  | "a" | "b" | "c" | "d" | "e" | "f"
  | "A" | "B" | "C" | "D" | "E" | "F" => true
  | _ => false
  end%char.

Definition hex_lower (a : ascii) : ascii :=
  match a with
  | "A" => "a" | "B" => "b" | "C" => "c"
  | "D" => "d" | "E" => "e" | "F" => "f"
  | _ => a
  end%char.

Fixpoint all_hex (s : string) : bool :=
  match s with
  | "" => true
  | String a s' => is_hex a && all_hex s'
  end.

Fixpoint map_string (f : ascii → ascii) (s : string) : string :=
  match s with
  | "" => ""
  | String a s' => String (f a) (map_string f s')
  end.

(** Mongoose casts a string id to an ObjectId before it queries; a string
    of 24 hexadecimal digits is castable, in either case of the letters.
    (Older releases also took any string of 12 characters as 12 raw bytes;
    that legacy form is not modelled.) *)
Definition castObjectId (s : string) : option ObjectId :=
  if (String.length s =? 24)%nat && all_hex s
  then Some (map_string hex_lower s)
  else None.

(** ** Documents *)

Module User.
(** Modelled from the spec: models/User.js is missing.  A user has a
    display name, an email and a password hash; these are also the fields
    the auth service reads and writes.  [password] holds the hash. *)
Record doc := mk { name : string; email : string; password : string }.
End User.

Module Post.
(** The paths of [postSchema], with the two [timestamps]. *)
Record doc := mk {
  title : string;
  content : string;
  authorId : ObjectId;
  createdAt : Z;
  updatedAt : Z
}.
End Post.

(** What [populate('authorId', 'name email')] puts in place of [authorId]. *)
Record Author := { author_id : ObjectId; author_name : string; author_email : string }.

Record PopulatedPost := {
  pp_id : ObjectId;
  pp_title : string;
  pp_content : string;
  pp_author : option Author;
  pp_createdAt : Z;
  pp_updatedAt : Z
}.

(** ** The document store and the effects of a request *)

(** The calls a request makes, in order; kept next to the collections so
    that statements about what was queried, and when, can be written. *)
Inductive Event :=
| PostFind
| PostFindById (id : string)
| PostCreate
| PostFindByIdAndUpdate (id : string)
| PostFindByIdAndDelete (id : string)
| Populate
| UserFindOne (email : string)
| UserCreate
| OwnerCompare (owner caller : string).

Record Db := {
  users : gmap string User.doc;
  posts : gmap string Post.doc;
  log : list Event
}.

(** What a request takes from the runtime it runs on: the clock
    ([Date.now()], in milliseconds), the ObjectId the driver generates for a
    new document, and [stringValue v], the text by which a cast error names
    the value [v] it could not cast: Mongoose renders the value with Node's
    [util.inspect] and puts it in double quotes, and how [util.inspect]
    writes a string (its escapes, its line breaks, where it cuts) is the
    runtime's. *)
Record Env := { now : Z; freshId : ObjectId; stringValue : string → string }.

Inductive Exn :=
| Error (message : string)
| CastError (message : string)
| ValidationError (message : string)
| MongoServerError (message : string).

Definition message (e : Exn) : string :=
  match e with
  | Error m | CastError m | ValidationError m | MongoServerError m => m
  end.

Inductive Outcome (A : Type) :=
| Return (a : A)
| Throw (e : Exn).
Arguments Return {A} a.
Arguments Throw {A} e.

(** An [async] function: it reads the environment, acts on the store and
    returns or throws.  Writes made before a throw stay. *)
Definition M (A : Type) : Type := Env → Db → Outcome A * Db.

Definition ret {A} (a : A) : M A := λ _ db, (Return a, db).
Definition throw {A} (e : Exn) : M A := λ _ db, (Throw e, db).
Definition bind {A B} (m : M A) (k : A → M B) : M B :=
  λ env db,
    match m env db with
    | (Return a, db') => k a env db'
    | (Throw e, db') => (Throw e, db')
    end.
Definition try_catch {A} (m : M A) (handler : Exn → M A) : M A :=
  λ env db,
    match m env db with
    | (Return a, db') => (Return a, db')
    | (Throw e, db') => handler e env db'
    end.

#[global] Instance M_ret : MRet M := @ret.
#[global] Instance M_bind : MBind M := λ A B k m, bind m k.

Definition ask : M Env := λ env db, (Return env, db).
Definition get : M Db := λ _ db, (Return db, db).
Definition record (e : Event) : M unit :=
  λ _ db, (Return (), {| users := users db; posts := posts db; log := log db ++ [e] |}).
Definition set_posts (ps : gmap string Post.doc) : M unit :=
  λ _ db, (Return (), {| users := users db; posts := ps; log := log db |}).
Definition set_users (us : gmap string User.doc) : M unit :=
  λ _ db, (Return (), {| users := us; posts := posts db; log := log db |}).

(** ** models/Post.js: the [Post] model

    [title] is [required] and has [trim: true]; [content] and [authorId]
    are [required]; [timestamps: true] maintains [createdAt]/[updatedAt]. *)

Module PostModel.

Definition dquote : string := String "034" "".

(** The message of the cast error of a query by [_id]; [rendered] is the
    value as the error names it. *)
Definition cast_message (rendered : string) : string :=
  "Cast to ObjectId failed for value " +:+ rendered
  +:+ " (type string) at path " +:+ dquote +:+ "_id" +:+ dquote
  +:+ " for model " +:+ dquote +:+ "Post" +:+ dquote.

Definition cast_id (id : string) : M ObjectId :=
  match castObjectId id with
  | Some k => ret k
  | None =>
      env ← ask;
      throw (CastError (cast_message (stringValue env id)))
  end.

(** The [trim] setter runs when a value is assigned to [title], on a new
    document and on an update alike; validation sees its result. *)
Definition set_title (title : string) : string := Js.trim title.

(** The [required] validators: a required string fails when it is empty.
    [authorId] is always supplied by the callers and is not listed. *)
Definition validate (title content : string) : list string :=
  (if decide (title = "") then ["title: Please provide a title"] else [])
  ++ (if decide (content = "") then ["content: Please provide content"] else []).

Definition check (prefix : string) (title content : string) : M unit :=
  match validate title content with
  | [] => ret ()
  | errs => throw (ValidationError (prefix +:+ Js.join ", " errs))
  end.

(** [Post.create({ title, content, authorId })] *)
Definition create (title content : string) (authorId : ObjectId)
  : M (ObjectId * Post.doc) :=
  record PostCreate;;
  let title := set_title title in
  check "Post validation failed: " title content;;
  env ← ask;
  db ← get;
  match posts db !! freshId env with
  | Some _ => throw (MongoServerError "E11000 duplicate key error")
  | None =>
      let d := Post.mk title content authorId (now env) (now env) in
      set_posts (<[freshId env := d]> (posts db));;
      ret (freshId env, d)
  end.

(** [Post.findById(id)] *)
Definition findById (id : string) : M (option (ObjectId * Post.doc)) :=
  record (PostFindById id);;
  k ← cast_id id;
  db ← get;
  ret ((λ d, (k, d)) <$> posts db !! k).

(** [Post.findByIdAndUpdate(id, { title, content },
                            { new: true, runValidators: true })]:
    the update is cast (setters run), validated, then applied; the
    document after the update is returned, or [null] when there is none. *)
Definition findByIdAndUpdate (id : string) (title content : string)
  : M (option (ObjectId * Post.doc)) :=
  record (PostFindByIdAndUpdate id);;
  k ← cast_id id;
  let title := set_title title in
  check "Validation failed: " title content;;
  env ← ask;
  db ← get;
  match posts db !! k with
  | None => ret None
  | Some d =>
      let d' := Post.mk title content (Post.authorId d) (Post.createdAt d) (now env) in
      set_posts (<[k := d']> (posts db));;
      ret (Some (k, d'))
  end.

(** [Post.findByIdAndDelete(id)] *)
Definition findByIdAndDelete (id : string) : M (option (ObjectId * Post.doc)) :=
  record (PostFindByIdAndDelete id);;
  k ← cast_id id;
  db ← get;
  match posts db !! k with
  | None => ret None
  | Some d => set_posts (delete k (posts db));; ret (Some (k, d))
  end.

(** The order [sort({ createdAt: -1 })] asks for. *)
Definition newer_first (x y : ObjectId * Post.doc) : Prop :=
  Post.createdAt y.2 ≤ Post.createdAt x.2.

#[global] Instance newer_first_dec : RelDecision newer_first.
Proof. intros x y. unfold newer_first. apply _. Defined.

(** [Post.find().sort({ createdAt: -1 })].  The order among documents
    with equal [createdAt] is whatever the sort leaves. *)
Definition find_sorted : M (list (ObjectId * Post.doc)) :=
  record PostFind;;
  db ← get;
  ret (merge_sort newer_first (map_to_list (posts db))).

(** [populate('authorId', 'name email')] on one document: the author's
    [_id], [name] and [email], or [null] when no such user exists. *)
Definition populated (us : gmap string User.doc) (p : ObjectId * Post.doc)
  : PopulatedPost :=
  {| pp_id := p.1;
     pp_title := Post.title p.2;
     pp_content := Post.content p.2;
     pp_author :=
       (λ u, {| author_id := Post.authorId p.2;
                author_name := User.name u;
                author_email := User.email u |}) <$> us !! Post.authorId p.2;
     pp_createdAt := Post.createdAt p.2;
     pp_updatedAt := Post.updatedAt p.2 |}.

Definition populate (p : ObjectId * Post.doc) : M PopulatedPost :=
  record Populate;;
  db ← get;
  ret (populated (users db) p).

Definition populate_all (ps : list (ObjectId * Post.doc)) : M (list PopulatedPost) :=
  record Populate;;
  db ← get;
  ret (populated (users db) <$> ps).

(** A query that found nothing resolves to [null]; nothing is populated. *)
Definition populate_found (p : option (ObjectId * Post.doc)) : M (option PopulatedPost) :=
  match p with
  | None => ret None
  | Some p => p' ← populate p; ret (Some p')
  end.

End PostModel.

(** ** services/postService.js *)

Module postService.

Definition getAllPosts : M (list PopulatedPost) :=
  posts ← PostModel.find_sorted;
  PostModel.populate_all posts.

Definition getPostById (postId : string) : M PopulatedPost :=
  found ← PostModel.findById postId;
  post ← PostModel.populate_found found;
  match post with
  | None => throw (Error "Post not found")
  | Some post => ret post
  end.

Definition createPost (title content : string) (authorId : ObjectId) : M PopulatedPost :=
  post ← PostModel.create title content authorId;
  PostModel.populate post.

Definition updatePost (postId : string) (title content : string) : M PopulatedPost :=
  found ← PostModel.findByIdAndUpdate postId title content;
  post ← PostModel.populate_found found;
  match post with
  | None => throw (Error "Post not found")
  | Some post => ret post
  end.

Definition deletePost (postId : string) : M (ObjectId * Post.doc) :=
  post ← PostModel.findByIdAndDelete postId;
  match post with
  | None => throw (Error "Post not found")
  | Some post => ret post
  end.

End postService.

(** ** Requests and responses *)

(** [req.params.id], [req.body] (string-valued properties; an absent key
    reads as [undefined]), [req.user._id] as the [authenticate] middleware
    left it, and [req.post] as [authorize] leaves it. *)
Record Request := {
  params_id : string;
  body : gmap string string;
  user_id : ObjectId;
  post : option (ObjectId * Post.doc)
}.

(** [res.status(status).json(json)] *)
Record Response := { status : nat; json : Json }.

Definition failure (msg : string) : Json :=
  JObj [("success", JBool false); ("message", JStr msg)].

Definition author_json (a : option Author) : Json :=
  match a with
  | None => JNull
  | Some a => JObj [("_id", JStr (author_id a));
                    ("name", JStr (author_name a));
                    ("email", JStr (author_email a))]
  end.

Definition post_json (p : PopulatedPost) : Json :=
  JObj [("_id", JStr (pp_id p));
        ("title", JStr (pp_title p));
        ("content", JStr (pp_content p));
        ("authorId", author_json (pp_author p));
        ("createdAt", JDate (pp_createdAt p));
        ("updatedAt", JDate (pp_updatedAt p));
        ("__v", JNum 0)].

(** The value of a property that is known to be a string. *)
Definition str (v : option string) : string := default "" v.

(** ** controllers/postController.js *)

Module postController.

Definition getAllPosts (req : Request) : M Response :=
  try_catch
    (posts ← postService.getAllPosts;
     ret {| status := 200;
            json := JObj [("success", JBool true);
                          ("count", JNum (Z.of_nat (length posts)));
                          ("data", JArr (post_json <$> posts))] |})
    (λ error, ret {| status := 500; json := failure (message error) |}).

Definition getPostById (req : Request) : M Response :=
  try_catch
    (post ← postService.getPostById (params_id req);
     ret {| status := 200;
            json := JObj [("success", JBool true); ("data", post_json post)] |})
    (λ error, ret {| status := 404; json := failure (message error) |}).

Definition createPost (req : Request) : M Response :=
  try_catch
    (let title := body req !! "title" in
     let content := body req !! "content" in
     if negb (Js.truthy title) || negb (Js.truthy content) then
       ret {| status := 400; json := failure "Please provide title and content" |}
     else
       post ← postService.createPost (str title) (str content) (user_id req);
       ret {| status := 201;
              json := JObj [("success", JBool true);
                            ("message", JStr "Post created successfully");
                            ("data", post_json post)] |})
    (λ error, ret {| status := 400; json := failure (message error) |}).

Definition updatePost (req : Request) : M Response :=
  try_catch
    (let title := body req !! "title" in
     let content := body req !! "content" in
     if negb (Js.truthy title) || negb (Js.truthy content) then
       ret {| status := 400; json := failure "Please provide title and content" |}
     else
       post ← postService.updatePost (params_id req) (str title) (str content);
       ret {| status := 200;
              json := JObj [("success", JBool true);
                            ("message", JStr "Post updated successfully");
                            ("data", post_json post)] |})
    (λ error, ret {| status := 404; json := failure (message error) |}).

Definition deletePost (req : Request) : M Response :=
  try_catch
    (postService.deletePost (params_id req);;
     ret {| status := 200;
            json := JObj [("success", JBool true);
                          ("message", JStr "Post deleted successfully")] |})
    (λ error, ret {| status := 404; json := failure (message error) |}).

End postController.

(** ** middleware/authorize.js *)

(** A middleware either ends the request with a response or calls
    [next()], handing the request on. *)
Inductive Handled :=
| Respond (res : Response)
| Next (req : Request).

Definition authorize (req : Request) : M Handled :=
  try_catch
    (found ← PostModel.findById (params_id req);
     match found with
     | None =>
         ret (Respond {| status := 404; json := failure "Post not found" |})
     | Some p =>
         record (OwnerCompare (toString (Post.authorId p.2)) (toString (user_id req)));;
         if bool_decide (toString (Post.authorId p.2) ≠ toString (user_id req)) then
           ret (Respond {| status := 403;
                           json := failure "Not authorized to perform this action" |})
         else
           ret (Next {| params_id := params_id req; body := body req;
                        user_id := user_id req; post := Some p |})
     end)
    (λ error,
       ret (Respond {| status := 500; json := failure "Error checking authorization" |})).

(** ** routes/postRoutes.js

    The protected routes run [authenticate] first; middleware/auth.js is not
    among the sources, and a [Request] here is one that passed it, with
    [user_id] the identity it attached. *)

Module router.

Definition guarded (gate : Request → M Handled) (handler : Request → M Response)
  (req : Request) : M Response :=
  h ← gate req;
  match h with
  | Respond res => ret res
  | Next req' => handler req'
  end.

Definition get_all : Request → M Response := postController.getAllPosts.
Definition get_one : Request → M Response := postController.getPostById.
Definition post_ : Request → M Response := postController.createPost.
Definition put : Request → M Response := guarded authorize postController.updatePost.
Definition delete : Request → M Response := guarded authorize postController.deletePost.

End router.

(** ** services/authService.js *)

(** The collaborators of the auth service whose code is not among the
    sources: bcrypt behind the [User] model ([hashPassword] at save time,
    [comparePassword candidate stored]), the validators of the [User]
    schema ([userValidation name email password] is the message of the
    validation error, if any) and utils/jwt ([generateToken now id]). *)
Class Collaborators := {
  hashPassword : string → string;
  comparePassword : string → string → bool;
  userValidation : string → string → string → option string;
  generateToken : Z → ObjectId → string
}.

Module UserModel.

(** The first stored user with exactly this email, if any. *)
Definition by_email (us : gmap string User.doc) (email : string)
  : option (ObjectId * User.doc) :=
  head (filter (λ u, User.email u.2 = email) (map_to_list us)).

(** [User.findOne({ email })] *)
Definition findOne (email : string) : M (option (ObjectId * User.doc)) :=
  record (UserFindOne email);;
  db ← get;
  ret (by_email (users db) email).

(** Modelled from the spec: models/User.js is missing.  [User.create]
    stores the name and the email as given (the email is case-sensitive
    as stored) with the hash of the password, never the plaintext, under
    a new identity. *)
Definition create `{Collaborators} (name email password : string)
  : M (ObjectId * User.doc) :=
  record UserCreate;;
  match userValidation name email password with
  | Some msg => throw (ValidationError msg)
  | None =>
      env ← ask;
      db ← get;
      match users db !! freshId env with
      | Some _ => throw (MongoServerError "E11000 duplicate key error")
      | None =>
          let u := User.mk name email (hashPassword password) in
          set_users (<[freshId env := u]> (users db));;
          ret (freshId env, u)
      end
  end.

End UserModel.

Module authService.

Definition userResponse `{Collaborators} (env : Env) (user : ObjectId * User.doc) : Json :=
  let token := generateToken (now env) user.1 in
  JObj [("id", JStr user.1);
        ("name", JStr (User.name user.2));
        ("email", JStr (User.email user.2));
        ("token", JStr token)].

Definition register `{Collaborators} (name email password : string) : M Json :=
  existingUser ← UserModel.findOne email;
  match existingUser with
  | Some _ => throw (Error "User already exists with this email")
  | None =>
      user ← UserModel.create name email password;
      env ← ask;
      ret (userResponse env user)
  end.

Definition login `{Collaborators} (email password : string) : M Json :=
  user ← UserModel.findOne email;
  match user with
  | None => throw (Error "Invalid credentials")
  | Some user =>
      if negb (comparePassword password (User.password user.2)) then
        throw (Error "Invalid credentials")
      else
        env ← ask;
        ret (userResponse env user)
  end.

End authService.

(** ** controllers/authController.js *)

Module authController.

(** Modelled from the spec: controllers/authController.js is missing.
    POST /auth/register answers 201 with the service's result and 400
    with the error's message when the service throws. *)
Definition register `{Collaborators} (name email password : string) : M Response :=
  try_catch
    (data ← authService.register name email password;
     ret {| status := 201;
            json := JObj [("success", JBool true);
                          ("message", JStr "User registered successfully");
                          ("data", data)] |})
    (λ error, ret {| status := 400; json := failure (message error) |}).

(** Modelled from the spec: controllers/authController.js is missing.
    POST /auth/login answers 200 with the service's result and 401 with
    the error's message when the service throws. *)
Definition login `{Collaborators} (email password : string) : M Response :=
  try_catch
    (data ← authService.login email password;
     ret {| status := 200;
            json := JObj [("success", JBool true);
                          ("message", JStr "Login successful");
                          ("data", data)] |})
    (λ error, ret {| status := 401; json := failure (message error) |}).

End authController.

(** ** frontend/src/validations/postSchemas.js

    The form's schema, checked in the browser before a request is sent. *)

Module postSchemas.

(** [content.replace(/<[^>]*>/g, '')]: a [<] together with everything up
    to the next [>] is dropped; [held] is the text since a [<] that has
    not been closed yet, kept if no [>] follows. *)
Fixpoint strip_from (held : option string) (s : string) : string :=
  match s with
  | "" => default "" held
  | String a s' =>
      match held with
      | None =>
          if Ascii.eqb a "<" then strip_from (Some "<") s'
          else String a (strip_from None s')
      | Some h =>
          if Ascii.eqb a ">" then strip_from None s'
          else strip_from (Some (h +:+ String a "")) s'
      end
  end.

Definition stripTags (s : string) : string := strip_from None s.

(** [postSchema.safeParse({ title, content }).success] *)
Definition postSchema (title content : string) : bool :=
  bool_decide (1 ≤ String.length title)%nat
  && bool_decide (3 ≤ String.length title)%nat
  && bool_decide (String.length title ≤ 200)%nat
  && bool_decide (1 ≤ String.length content)%nat
  && bool_decide (10 ≤ String.length (Js.trim (stripTags content)))%nat.

End postSchemas.

(** ** Vocabulary of the statements *)

(** [db] after the calls [events] were made and nothing was written. *)
Definition logged (db : Db) (events : list Event) : Db :=
  {| users := users db; posts := posts db; log := log db ++ events |}.

(** [req] with [req.post] set. *)
Definition with_post (req : Request) (p : option (ObjectId * Post.doc)) : Request :=
  {| params_id := params_id req; body := body req; user_id := user_id req; post := p |}.

(** [req] as sent by another caller. *)
Definition as_caller (req : Request) (caller : ObjectId) : Request :=
  {| params_id := params_id req; body := body req; user_id := caller; post := post req |}.

Definition forbidden : Response :=
  {| status := 403; json := failure "Not authorized to perform this action" |}.

Definition not_found : Response :=
  {| status := 404; json := failure "Post not found" |}.

(** The events that are queries on the posts collection by id. *)
Definition is_post_query (e : Event) : bool :=
  match e with
  | PostFindById _ | PostFindByIdAndUpdate _ | PostFindByIdAndDelete _ => true
  | _ => false
  end.

Definition post_queries (events : list Event) : list Event :=
  filter (λ e, is_post_query e = true) events.

(** No two stored users share an email. *)
Definition unique_emails (db : Db) : Prop :=
  ∀ i j u v,
    users db !! i = Some u → users db !! j = Some v →
    User.email u = User.email v → i = j.

(** The store after a sequence of registration requests, each with the
    environment it ran in. *)
Fixpoint registrations `{Collaborators}
  (requests : list (Env * (string * string * string))) (db : Db) : Db :=
  match requests with
  | [] => db
  | (env, (name, email, password)) :: rest =>
      registrations rest (authService.register name email password env db).2
  end.

Definition empty_db : Db := {| users := ∅; posts := ∅; log := [] |}.

(** [db] with every stored password hash blanked out. *)
Definition without_hash (u : User.doc) : User.doc :=
  User.mk (User.name u) (User.email u) "".

Definition forget_passwords (db : Db) : Db :=
  {| users := without_hash <$> users db; posts := posts db; log := log db |}.

(** A computation that neither reads nor returns a stored password hash:
    blanking the hashes beforehand changes nothing but the hashes. *)
Definition oblivious {A} (m : M A) : Prop :=
  ∀ env db,
    m env (forget_passwords db) = ((m env db).1, forget_passwords (m env db).2).

(** The order of [list()]: newest first. *)
Definition newest_first (x y : PopulatedPost) : Prop :=
  pp_createdAt y ≤ pp_createdAt x.

(** ** Sample data, for the examples *)

Definition alice : ObjectId := "aaaaaaaaaaaaaaaaaaaaaaaa".
Definition bob : ObjectId := "bbbbbbbbbbbbbbbbbbbbbbbb".
Definition first_post : ObjectId := "000000000000000000000001".
Definition second_post : ObjectId := "000000000000000000000002".

Definition alices_post : Post.doc := Post.mk "Old" "Text" alice 5 5.

Definition sample_db : Db :=
  {| users := {[ alice := User.mk "Alice" "alice@example.com" "hash:secret" ]};
     posts := {[ first_post := alices_post ]};
     log := [] |}.

(** How a value made of letters and digits is named by a cast error. *)
Definition in_double_quotes (value : string) : string :=
  PostModel.dquote +:+ value +:+ PostModel.dquote.

Definition env_at (time : Z) (id : ObjectId) : Env :=
  {| now := time; freshId := id; stringValue := in_double_quotes |}.

Definition sample_env : Env := env_at 9 second_post.

Definition request (id : string) (caller : ObjectId) (fields : list (string * string))
  : Request :=
  {| params_id := id; body := list_to_map fields; user_id := caller; post := None |}.

Definition sample_collaborators : Collaborators :=
  {| hashPassword := λ password, "hash:" +:+ password;
     comparePassword := λ candidate stored, String.eqb ("hash:" +:+ candidate) stored;
     userValidation := λ _ _ _, None;
     generateToken := λ _ id, "token:" +:+ id |}.

(** The response of a run that returned one. *)
Definition response (out : Outcome Response * Db) : Response :=
  match out.1 with
  | Return res => res
  | Throw e => {| status := 0; json := JNull |}
  end.

(** ** Unfolding a request *)

Ltac run :=
  unfold router.put, router.delete, router.post_, router.get_all, router.get_one,
    router.guarded, authorize,
    postController.updatePost, postController.deletePost, postController.createPost,
    postController.getAllPosts, postController.getPostById,
    postService.updatePost, postService.deletePost, postService.createPost,
    postService.getAllPosts, postService.getPostById,
    PostModel.findById, PostModel.findByIdAndUpdate, PostModel.findByIdAndDelete,
    PostModel.create, PostModel.find_sorted, PostModel.populate_found,
    PostModel.populate, PostModel.populate_all, PostModel.check, PostModel.cast_id,
    mbind, M_bind, mret, M_ret, bind, try_catch, ret, throw, ask, get, record,
    set_posts, set_users, logged in *;
  simpl in *.

Ltac run_auth :=
  unfold authController.login, authController.register,
    authService.login, authService.register, UserModel.create, UserModel.findOne,
    mbind, M_bind, mret, M_ret, bind, try_catch, ret, throw, ask, get, record,
    set_users, logged in *;
  simpl in *.

(** ** frontend: the form's schema, issue by issue

    [postSchema.safeParse(formData)] collects an issue for every check that
    fails, the fields in the order of the schema and the checks of a field
    in the order they are chained; the refinement of [content] runs also
    when [min(1)] has failed. *)

Module zod.

Definition title_issues (title : string) : list string :=
  (if bool_decide (String.length title < 1)%nat then ["Title is required"] else [])
  ++ (if bool_decide (String.length title < 3)%nat
      then ["Title must be at least 3 characters"] else [])
  ++ (if bool_decide (200 < String.length title)%nat
      then ["Title must be less than 200 characters"] else []).

Definition content_issues (content : string) : list string :=
  (if bool_decide (String.length content < 1)%nat then ["Content is required"] else [])
  ++ (if bool_decide (10 ≤ String.length (Js.trim (postSchemas.stripTags content)))%nat
      then []
      else ["Content must be at least 10 characters (excluding HTML tags)"]).

(** [validationResult.error.errors], as pairs of [path[0]] and [message];
    empty when [validationResult.success]. *)
Definition safeParse (title content : string) : list (string * string) :=
  ((λ m, ("title", m)) <$> title_issues title)
  ++ ((λ m, ("content", m)) <$> content_issues content).

End zod.

(** ** frontend/src/components/PostForm.jsx *)

Module PostForm.

(** What [handleSubmit] does with the form: it stops with the message that
    asks to log in, stops with the field errors, or calls [updatePost(id,
    formData)] (edit mode) or [createPost(formData)]. *)
Inductive Submission :=
| LoginRequired (error : string)
| Invalid (errors : gmap string string)
| Update (id : string) (title content : string)
| Create (title content : string).

(** [errors.forEach((err) => { fieldErrors[err.path[0]] = err.message; })] *)
Definition fieldErrors (errors : list (string * string)) : gmap string string :=
  foldl (λ acc err, <[err.1 := err.2]> acc) ∅ errors.

(** [id] is the route parameter, [undefined] on the page for a new post;
    [formData] is the pair of [title] and [content]. *)
Definition handleSubmit (isAuthenticated : bool) (id : option string)
  (title content : string) : Submission :=
  let isEditMode := Js.truthy id in
  if negb isAuthenticated then
    LoginRequired "You must be logged in to create/edit posts"
  else
    match zod.safeParse title content with
    | [] => if isEditMode then Update (str id) title content else Create title content
    | errors => Invalid (fieldErrors errors)
    end.

End PostForm.

(** ** frontend/src/components/PostView.jsx *)

Module PostView.

(** The user the auth context holds: [{ id, name, email }]. *)
Record SessionUser := { id : string; name : string; email : string }.

(** [user && post && user.id === post.authorId._id], as the truth value the
    page uses; [None] when evaluating it throws a TypeError, which it does
    when [post.authorId] is [null]. *)
Definition isOwner (user : option SessionUser) (post : option PopulatedPost)
  : option bool :=
  match user, post with
  | Some user, Some post =>
      match pp_author post with
      | Some author => Some (bool_decide (id user = author_id author))
      | None => None
      end
  | _, _ => Some false
  end.

End PostView.

(** ** Further vocabulary *)

(** Every stored post has a trimmed, non-empty title and a non-empty
    content. *)
Definition well_formed_posts (db : Db) : Prop :=
  ∀ k p, posts db !! k = Some p →
    Js.trim (Post.title p) = Post.title p
    ∧ Post.title p ≠ "" ∧ Post.content p ≠ "".

(** The five routes of the post router. *)
Definition routes : list (Request → M Response) :=
  [router.get_all; router.get_one; router.post_; router.put; router.delete].

(** The request a form submission becomes, for a logged-in caller. *)
Definition form_request (caller : ObjectId) (id : string) (title content : string)
  : Request :=
  request id caller [("title", title); ("content", content)].

(** No code unit of [s] is [a]. *)
Fixpoint lacks (a : ascii) (s : string) : bool :=
  match s with
  | "" => true
  | String b s' => negb (Ascii.eqb a b) && lacks a s'
  end.

(** * Properties *)

(** ** Strings *)

Lemma trimStart_empty s : Js.trimStart s = "" ↔ Js.blank s = true.
Proof.
  induction s as [|a s IH]; simpl; [done|].
  destruct (Js.is_white_space a); simpl; [done|]. split; discriminate.
Qed.

Lemma trimEnd_empty s : Js.trimEnd s = "" ↔ Js.blank s = true.
Proof.
  induction s as [|a s IH]; simpl; [done|].
  destruct (Js.trimEnd s) eqn:E.
  - destruct (Js.is_white_space a); simpl; [tauto|]. split; discriminate.
  - split; [discriminate|]. intros [_ Hb]%andb_true_iff.
    apply IH in Hb. discriminate.
Qed.

Lemma blank_trimStart s : Js.blank (Js.trimStart s) = Js.blank s.
Proof.
  induction s as [|a s IH]; simpl; [done|].
  destruct (Js.is_white_space a) eqn:E; simpl; [done|]. by rewrite E.
Qed.

Lemma trim_empty s : Js.trim s = "" ↔ Js.blank s = true.
Proof. unfold Js.trim. by rewrite trimEnd_empty, blank_trimStart. Qed.

Example trim_both_ends : Js.trim "  a b  " = "a b".
Proof. reflexivity. Qed.

Example trim_white_space_only : Js.trim (String "009" (String "160" " ")) = "".
Proof. reflexivity. Qed.

Example stripTags_paragraph : postSchemas.stripTags "<p>Hello <b>you</b></p>" = "Hello you".
Proof. reflexivity. Qed.

Example stripTags_unclosed : postSchemas.stripTags "a < b" = "a < b".
Proof. reflexivity. Qed.

Example castObjectId_upper_case :
  castObjectId "ABCDEF0123456789abcdef01" = Some "abcdef0123456789abcdef01".
Proof. reflexivity. Qed.

Example castObjectId_short : castObjectId "abc" = None.
Proof. reflexivity. Qed.

(** The form's schema refuses a content that is nothing but tags. *)
Example postSchema_tags_only : postSchemas.postSchema "A title" "<p><br></p>" = false.
Proof. reflexivity. Qed.

(** ** Running a request *)

Lemma findById_found env db id k p :
  castObjectId id = Some k → posts db !! k = Some p →
  PostModel.findById id env db = (Return (Some (k, p)), logged db [PostFindById id]).
Proof. intros Hc Hp. run. rewrite Hc. simpl. by rewrite Hp. Qed.

Lemma findById_missing env db id k :
  castObjectId id = Some k → posts db !! k = None →
  PostModel.findById id env db = (Return None, logged db [PostFindById id]).
Proof. intros Hc Hp. run. rewrite Hc. simpl. by rewrite Hp. Qed.

Lemma findById_malformed env db id :
  castObjectId id = None →
  PostModel.findById id env db
  = (Throw (CastError (PostModel.cast_message (stringValue env id))),
     logged db [PostFindById id]).
Proof. intros Hc. run. by rewrite Hc. Qed.

Lemma authorize_owner env db req k p :
  castObjectId (params_id req) = Some k → posts db !! k = Some p →
  Post.authorId p = user_id req →
  authorize req env db
  = (Return (Next (with_post req (Some (k, p)))),
     logged db [PostFindById (params_id req);
                OwnerCompare (Post.authorId p) (user_id req)]).
Proof.
  intros Hc Hp Ho. unfold authorize, try_catch, mbind, M_bind, bind.
  rewrite (findById_found _ _ _ _ _ Hc Hp). run.
  rewrite bool_decide_eq_false_2 by (unfold toString; naive_solver).
  by rewrite <- app_assoc.
Qed.

Lemma authorize_stranger env db req k p :
  castObjectId (params_id req) = Some k → posts db !! k = Some p →
  Post.authorId p ≠ user_id req →
  authorize req env db
  = (Return (Respond forbidden),
     logged db [PostFindById (params_id req);
                OwnerCompare (Post.authorId p) (user_id req)]).
Proof.
  intros Hc Hp Ho. unfold authorize, try_catch, mbind, M_bind, bind.
  rewrite (findById_found _ _ _ _ _ Hc Hp). run.
  rewrite bool_decide_eq_true_2 by done.
  by rewrite <- app_assoc.
Qed.

Lemma deletePost_found env db req k p :
  castObjectId (params_id req) = Some k → posts db !! k = Some p →
  postController.deletePost req env db
  = (Return {| status := 200;
               json := JObj [("success", JBool true);
                             ("message", JStr "Post deleted successfully")] |},
     {| users := users db; posts := delete k (posts db);
        log := log db ++ [PostFindByIdAndDelete (params_id req)] |}).
Proof. intros Hcast Hp. run. rewrite Hcast. simpl. by rewrite Hp. Qed.

(** C1.  A post [p] stored under [k] and a request on it by an
    authenticated caller: when the caller is not the post's [authorId],
    PUT and DELETE are both answered 403 by the gate and the collections
    are left as they were; when the caller is the [authorId], the gate
    calls [next()] with the loaded post attached and the route's answer is
    the handler's, which for DELETE is 200 with the post removed. *)
Theorem update_delete_owner_only env db req k p :
  castObjectId (params_id req) = Some k →
  posts db !! k = Some p →
  let db1 := logged db [PostFindById (params_id req);
                        OwnerCompare (Post.authorId p) (user_id req)] in
  (Post.authorId p ≠ user_id req →
     router.put req env db = (Return forbidden, db1)
     ∧ router.delete req env db = (Return forbidden, db1)
     ∧ posts db1 = posts db ∧ users db1 = users db)
  ∧ (Post.authorId p = user_id req →
     let req1 := with_post req (Some (k, p)) in
     authorize req env db = (Return (Next req1), db1)
     ∧ router.put req env db = postController.updatePost req1 env db1
     ∧ router.delete req env db = postController.deletePost req1 env db1
     ∧ router.delete req env db
       = (Return {| status := 200;
                    json := JObj [("success", JBool true);
                                  ("message", JStr "Post deleted successfully")] |},
          {| users := users db; posts := delete k (posts db);
             log := log db1 ++ [PostFindByIdAndDelete (params_id req)] |})).
Proof.
  intros Hc Hp db1. split; intros Ho.
  - unfold router.put, router.delete, router.guarded, mbind, M_bind, bind.
    by rewrite (authorize_stranger _ _ _ _ _ Hc Hp Ho).
  - unfold router.put, router.delete, router.guarded, mbind, M_bind, bind.
    rewrite (authorize_owner _ _ _ _ _ Hc Hp Ho). split_and!; try done.
    by rewrite (deletePost_found env (logged db _) (with_post req (Some (k, p))) k p Hc Hp).
Qed.

(** C2, as stated, fails.  The id [abc] names no post of the empty store,
    yet the gate answers 500, not 404: the lookup throws on an id that is
    not an ObjectId, and the gate's [catch] answers. *)
Lemma authorize_malformed_id_not_404 :
  let req := request "abc" alice [] in
  (∀ k p, posts empty_db !! k = Some p → castObjectId (params_id req) ≠ Some k)
  ∧ authorize req sample_env empty_db
    = (Return (Respond {| status := 500; json := failure "Error checking authorization" |}),
       logged empty_db [PostFindById "abc"])
  ∧ (authorize req sample_env empty_db).1 ≠ Return (Respond not_found).
Proof.
  split; [|split].
  - intros k p Hp. simpl in Hp. by rewrite lookup_empty in Hp.
  - reflexivity.
  - discriminate.
Qed.

(** C2, amended.  When the id of the request names no stored post, the
    gate makes one lookup and no ownership comparison, and its answer is
    the same for every caller: 404 when the id is a well-formed ObjectId,
    500 when it is not. *)
Theorem authorize_missing_uniform env db req :
  (∀ k p, posts db !! k = Some p → castObjectId (params_id req) ≠ Some k) →
  let answer :=
    match castObjectId (params_id req) with
    | Some _ => not_found
    | None => {| status := 500; json := failure "Error checking authorization" |}
    end in
  ∀ caller,
    authorize (as_caller req caller) env db
    = (Return (Respond answer), logged db [PostFindById (params_id req)]).
Proof.
  intros Hno answer caller. unfold authorize, try_catch, mbind, M_bind, bind.
  subst answer. simpl. destruct (castObjectId (params_id req)) as [k|] eqn:Hc.
  - assert (posts db !! k = None) as Hp.
    { destruct (posts db !! k) as [p|] eqn:Hp; [|done]. by destruct (Hno k p). }
    by rewrite (findById_missing _ _ _ _ Hc Hp).
  - by rewrite (findById_malformed _ _ _ Hc).
Qed.

(** ** The update handler *)

Lemma truthy_str v : Js.truthy v = true → v = Some (str v) ∧ str v ≠ "".
Proof. destruct v as [[|a s]|]; simpl; try discriminate. done. Qed.

Lemma validate_ok title content :
  title ≠ "" → content ≠ "" → PostModel.validate title content = [].
Proof. intros. unfold PostModel.validate. by rewrite !decide_False. Qed.

Lemma validate_blank_title title content :
  title = "" → content ≠ "" →
  PostModel.validate title content = ["title: Please provide a title"].
Proof. intros. unfold PostModel.validate. by rewrite decide_True, decide_False. Qed.

(** C10.  In the update controller, once the truthiness check has passed,
    whatever the post service throws is answered 404 with the error's
    message (never 400); and an update by the owner of an existing post
    whose title is non-empty but all white space is such a case: the
    store's validation fails and the answer is 404, the post untouched. *)
Theorem update_failures_reported_as_404 :
  (∀ env db req e db',
     Js.truthy (body req !! "title") = true →
     Js.truthy (body req !! "content") = true →
     postService.updatePost (params_id req) (str (body req !! "title"))
       (str (body req !! "content")) env db = (Throw e, db') →
     postController.updatePost req env db
     = (Return {| status := 404; json := failure (message e) |}, db'))
  ∧ (∀ env db req k p,
       castObjectId (params_id req) = Some k →
       posts db !! k = Some p →
       Post.authorId p = user_id req →
       Js.truthy (body req !! "title") = true →
       Js.blank (str (body req !! "title")) = true →
       Js.truthy (body req !! "content") = true →
       router.put req env db
       = (Return {| status := 404;
                    json := failure "Validation failed: title: Please provide a title" |},
          logged db [PostFindById (params_id req);
                     OwnerCompare (Post.authorId p) (user_id req);
                     PostFindByIdAndUpdate (params_id req)])).
Proof.
  split.
  - intros env db req e db' Ht Hc Hthrow.
    unfold postController.updatePost, try_catch, mbind, M_bind, bind.
    rewrite Ht, Hc. simpl. unfold mbind, M_bind, bind.
    by rewrite Hthrow.
  - intros env db req k p Hcast Hp Ho Ht Hb Hc.
    unfold router.put, router.guarded, mbind, M_bind, bind.
    rewrite (authorize_owner _ _ _ _ _ Hcast Hp Ho).
    apply trim_empty in Hb. destruct (truthy_str _ Hc) as [_ Hc'].
    unfold postController.updatePost, try_catch, mbind, M_bind, bind. simpl.
    rewrite Ht, Hc. run. rewrite Hcast. simpl.
    unfold PostModel.set_title. rewrite (validate_blank_title _ _ Hb Hc'). simpl.
    by rewrite <- !app_assoc.
Qed.

(** The update handler reads [req.params.id] and the [title] and [content]
    of the body, and nothing else of the request. *)
Lemma updatePost_reads req1 req2 env db :
  params_id req1 = params_id req2 →
  body req1 !! "title" = body req2 !! "title" →
  body req1 !! "content" = body req2 !! "content" →
  postController.updatePost req1 env db = postController.updatePost req2 env db.
Proof.
  intros Hid Ht Hc. unfold postController.updatePost. by rewrite Hid, Ht, Hc.
Qed.

(** The delete handler reads [req.params.id] only. *)
Lemma deletePost_reads req1 req2 env db :
  params_id req1 = params_id req2 →
  postController.deletePost req1 env db = postController.deletePost req2 env db.
Proof. intros Hid. unfold postController.deletePost. by rewrite Hid. Qed.

Lemma updatePost_service_found env db id k p title content :
  castObjectId id = Some k → posts db !! k = Some p →
  Js.trim title ≠ "" → content ≠ "" →
  let p' := Post.mk (Js.trim title) content (Post.authorId p) (Post.createdAt p) (now env) in
  postService.updatePost id title content env db
  = (Return (PostModel.populated (users db) (k, p')),
     {| users := users db; posts := <[k := p']> (posts db);
        log := log db ++ [PostFindByIdAndUpdate id; Populate] |}).
Proof.
  intros Hc Hp Ht Hn p'. run. rewrite Hc. simpl.
  unfold PostModel.set_title. rewrite (validate_ok _ _ Ht Hn). simpl.
  rewrite Hp. simpl. by rewrite <- app_assoc.
Qed.

(** C5.  An update that succeeds (200) wrote the trimmed [title], the
    [content] and [updatedAt] of the addressed post and nothing else: the
    post is still stored under the same id with the same [authorId] and
    [createdAt], every other post and every user is as before, and the
    answer carries that post.  Nothing else of the request body is read:
    a body that also names an owner is handled exactly as one that does
    not. *)
Theorem update_changes_title_content_only env db req res db' :
  postController.updatePost req env db = (Return res, db') →
  status res = 200%nat →
  (∃ k p p' title content,
     castObjectId (params_id req) = Some k
     ∧ body req !! "title" = Some title ∧ body req !! "content" = Some content
     ∧ posts db !! k = Some p ∧ posts db' !! k = Some p'
     ∧ Post.authorId p' = Post.authorId p
     ∧ Post.createdAt p' = Post.createdAt p
     ∧ Post.title p' = Js.trim title
     ∧ Post.content p' = content
     ∧ Post.updatedAt p' = now env
     ∧ (∀ j, j ≠ k → posts db' !! j = posts db !! j)
     ∧ users db' = users db
     ∧ json res = JObj [("success", JBool true);
                        ("message", JStr "Post updated successfully");
                        ("data", post_json (PostModel.populated (users db) (k, p')))])
  ∧ (∀ owner,
       postController.updatePost
         {| params_id := params_id req; body := <["authorId" := owner]> (body req);
            user_id := user_id req; post := post req |} env db
       = (Return res, db')).
Proof.
  intros Hrun Hstatus. split.
  - unfold postController.updatePost, try_catch, mbind, M_bind, bind in Hrun.
    simpl in Hrun.
    destruct (Js.truthy (body req !! "title")) eqn:Ht; simpl in Hrun;
      [|inversion Hrun; subst; simpl in Hstatus; lia].
    destruct (Js.truthy (body req !! "content")) eqn:Hc; simpl in Hrun;
      [|inversion Hrun; subst; simpl in Hstatus; lia].
    destruct (truthy_str _ Ht) as [Ht1 _]. destruct (truthy_str _ Hc) as [Hc1 Hc2].
    set (title := str (body req !! "title")) in *.
    set (content := str (body req !! "content")) in *.
    destruct (castObjectId (params_id req)) as [k|] eqn:Hcast;
      [|by run; rewrite Hcast in Hrun; inversion Hrun; subst].
    destruct (decide (Js.trim title = "")) as [Hb|Hb].
    { run. rewrite Hcast in Hrun. simpl in Hrun. unfold PostModel.set_title in Hrun.
      rewrite (validate_blank_title _ _ Hb Hc2) in Hrun.
      inversion Hrun; subst; simpl in Hstatus; lia. }
    destruct (posts db !! k) as [p|] eqn:Hp.
    + unfold mbind, M_bind, bind in Hrun.
      rewrite (updatePost_service_found _ _ _ _ _ _ _ Hcast Hp Hb Hc2) in Hrun.
      simpl in Hrun. inversion Hrun; subst; clear Hrun. simpl.
      exists k, p,
        (Post.mk (Js.trim title) content (Post.authorId p) (Post.createdAt p) (now env)),
        title, content.
      split_and!; try done.
      * by rewrite lookup_insert_eq.
      * intros j Hj. by rewrite lookup_insert_ne.
    + run. rewrite Hcast in Hrun. simpl in Hrun. unfold PostModel.set_title in Hrun.
      rewrite (validate_ok _ _ Hb Hc2) in Hrun. simpl in Hrun. rewrite Hp in Hrun.
      inversion Hrun; subst; simpl in Hstatus; lia.
  - intros owner. rewrite <- Hrun. apply updatePost_reads; simpl; [done|..];
      by rewrite lookup_insert_ne.
Qed.

(** ** What the handlers ask the store *)

Lemma post_queries_app l1 l2 : post_queries (l1 ++ l2) = post_queries l1 ++ post_queries l2.
Proof. unfold post_queries. apply filter_app. Qed.

Lemma updatePost_queries env db req k p :
  castObjectId (params_id req) = Some k → posts db !! k = Some p →
  post_queries (log (postController.updatePost req env db).2)
  = post_queries (log db)
    ++ (if Js.truthy (body req !! "title") && Js.truthy (body req !! "content")
        then [PostFindByIdAndUpdate (params_id req)] else []).
Proof.
  intros Hcast Hp.
  unfold postController.updatePost, try_catch, mbind, M_bind, bind. simpl.
  destruct (Js.truthy (body req !! "title")) eqn:Ht; simpl;
    [|by rewrite app_nil_r].
  destruct (Js.truthy (body req !! "content")) eqn:Hc; simpl;
    [|by rewrite app_nil_r].
  destruct (truthy_str _ Hc) as [_ Hc2].
  set (title := str (body req !! "title")).
  set (content := str (body req !! "content")) in *.
  destruct (decide (Js.trim title = "")) as [Hb|Hb].
  - run. rewrite Hcast. simpl. unfold PostModel.set_title.
    rewrite (validate_blank_title _ _ Hb Hc2). simpl.
    by rewrite post_queries_app.
  - unfold mbind, M_bind, bind.
    rewrite (updatePost_service_found _ _ _ _ _ _ _ Hcast Hp Hb Hc2). simpl.
    by rewrite post_queries_app.
Qed.

(** C8, as stated, fails.  Alice updates her post: the guard looks the
    post up and attaches it, the handler answers the same whether or not
    [req.post] is there, and addresses the store by id a second time. *)
Lemma update_queries_post_twice :
  let req := request first_post alice [("title", "New"); ("content", "Text")] in
  let req1 := with_post req (Some (first_post, alices_post)) in
  let db1 := logged sample_db [PostFindById first_post; OwnerCompare alice alice] in
  authorize req sample_env sample_db = (Return (Next req1), db1)
  ∧ postController.updatePost req1 sample_env db1
    = postController.updatePost (with_post req1 None) sample_env db1
  ∧ log (router.put req sample_env sample_db).2
    = [PostFindById first_post; OwnerCompare alice alice;
       PostFindByIdAndUpdate first_post; Populate]
  ∧ length (post_queries (log (router.put req sample_env sample_db).2)) ≠ 1%nat.
Proof.
  intros req req1 db1. split_and!.
  - by vm_compute.
  - reflexivity.
  - by vm_compute.
  - vm_compute. discriminate.
Qed.

(** C8, amended.  When the guard passes it has attached the post it loaded
    to the request; the update and delete handlers do not read it (they
    answer the same whatever [req.post] holds) and address the store by
    [req.params.id] again: one [findById] by the guard, then one
    [findByIdAndUpdate] (unless the body fails the handler's truthiness
    check) or [findByIdAndDelete] by the handler. *)
Theorem guard_attaches_post_handlers_query_again env db req k p :
  castObjectId (params_id req) = Some k →
  posts db !! k = Some p →
  Post.authorId p = user_id req →
  let req1 := with_post req (Some (k, p)) in
  let db1 := logged db [PostFindById (params_id req);
                        OwnerCompare (Post.authorId p) (user_id req)] in
  authorize req env db = (Return (Next req1), db1)
  ∧ (∀ loaded,
       postController.updatePost (with_post req loaded) env db1
       = postController.updatePost req1 env db1
       ∧ postController.deletePost (with_post req loaded) env db1
         = postController.deletePost req1 env db1)
  ∧ post_queries (log (router.put req env db).2)
    = post_queries (log db)
      ++ PostFindById (params_id req)
         :: (if Js.truthy (body req !! "title") && Js.truthy (body req !! "content")
             then [PostFindByIdAndUpdate (params_id req)] else [])
  ∧ post_queries (log (router.delete req env db).2)
    = post_queries (log db)
      ++ [PostFindById (params_id req); PostFindByIdAndDelete (params_id req)].
Proof.
  intros Hcast Hp Ho req1 db1. subst req1 db1.
  pose proof (authorize_owner env db req k p Hcast Hp Ho) as Hauth.
  split; [done|]. split.
  { intros loaded. split.
    - by apply updatePost_reads.
    - by apply deletePost_reads. }
  split.
  - unfold router.put, router.guarded, mbind, M_bind, bind. rewrite Hauth.
    cbv beta iota.
    rewrite (updatePost_queries env (logged db _) (with_post req (Some (k, p))) k p Hcast Hp).
    unfold logged. simpl. rewrite post_queries_app. simpl.
    by rewrite <- app_assoc.
  - unfold router.delete, router.guarded, mbind, M_bind, bind. rewrite Hauth.
    cbv beta iota.
    rewrite (deletePost_found env (logged db _) (with_post req (Some (k, p))) k p Hcast Hp).
    simpl.
    rewrite !post_queries_app. simpl. by rewrite <- app_assoc.
Qed.

(** ** Creating a post *)

Lemma not_truthy_str v : Js.truthy v = false → str v = "".
Proof. by destruct v as [[|a s]|]. Qed.

(** C7, as stated, fails.  A title made of an empty pair of tags and a
    content of one space are both empty after stripping tags and trimming,
    and the request is accepted with 201: the post is created as sent. *)
Lemma create_accepts_tags_only_title :
  let req := request "" alice [("title", "<b></b>"); ("content", " ")] in
  let out := postController.createPost req sample_env sample_db in
  Js.trim (postSchemas.stripTags "<b></b>") = ""
  ∧ Js.trim (postSchemas.stripTags " ") = ""
  ∧ (∃ res, out.1 = Return res ∧ status res = 201%nat ∧ status res ≠ 400%nat)
  ∧ posts out.2 !! second_post = Some (Post.mk "<b></b>" " " alice 9 9).
Proof.
  intros req out. split_and!; [by vm_compute..| |by vm_compute].
  eexists. split; [by vm_compute|]. split; [reflexivity|]. simpl. lia.
Qed.

(** C7, amended.  With a new id at hand, a create request is answered 400
    exactly when its title is missing or empty once trimmed, or its content
    is missing or empty as sent; otherwise it is answered 201.  Nothing is
    stripped of markup, and the content is not trimmed. *)
Theorem create_rejected_iff env db req :
  posts db !! freshId env = None →
  ∃ res db',
    postController.createPost req env db = (Return res, db')
    ∧ (status res = 400%nat
       ↔ Js.trim (str (body req !! "title")) = "" ∨ str (body req !! "content") = "")
    ∧ (status res ≠ 400%nat → status res = 201%nat).
Proof.
  intros Hfresh.
  unfold postController.createPost, try_catch, mbind, M_bind, bind. simpl.
  destruct (Js.truthy (body req !! "title")) eqn:Ht; simpl.
  2:{ eexists _, _. split; [done|]. apply not_truthy_str in Ht. rewrite Ht. simpl.
      split; [by split; auto|done]. }
  destruct (Js.truthy (body req !! "content")) eqn:Hc; simpl.
  2:{ eexists _, _. split; [done|]. apply not_truthy_str in Hc. rewrite Hc. simpl.
      split; [by split; auto|done]. }
  destruct (truthy_str _ Hc) as [_ Hc2].
  set (title := str (body req !! "title")).
  set (content := str (body req !! "content")) in *.
  destruct (decide (Js.trim title = "")) as [Hb|Hb].
  - run. unfold PostModel.set_title. rewrite (validate_blank_title _ _ Hb Hc2). simpl.
    eexists _, _. split; [done|]. simpl. split; [by split; auto|done].
  - run. unfold PostModel.set_title. rewrite (validate_ok _ _ Hb Hc2). simpl.
    rewrite Hfresh. simpl.
    eexists _, _. split; [done|]. simpl. split; [|done].
    split; [lia|]. intros [?|?]; done.
Qed.

(** ** The auth service *)

Lemma by_email_Some us email k u :
  UserModel.by_email us email = Some (k, u) → us !! k = Some u ∧ User.email u = email.
Proof.
  unfold UserModel.by_email. intros Hh. apply head_Some_elem_of in Hh.
  apply list_elem_of_filter in Hh as [He Hin]. simpl in He.
  by apply elem_of_map_to_list in Hin.
Qed.

Lemma by_email_None us email :
  UserModel.by_email us email = None ↔ ∀ k u, us !! k = Some u → User.email u ≠ email.
Proof.
  unfold UserModel.by_email. rewrite head_None. split.
  - intros Hnil k u Hk He.
    apply (filter_nil_not_elem_of _ _ (k, u) Hnil); [done|].
    by apply elem_of_map_to_list.
  - intros Hno. destruct (filter _ _) as [|[k u] l] eqn:Hf; [done|].
    assert ((k, u) ∈ (k, u) :: l) as Hin by left. rewrite <- Hf in Hin.
    apply list_elem_of_filter in Hin as [He Hin]. simpl in He.
    apply elem_of_map_to_list in Hin. by destruct (Hno k u).
Qed.

(** C3.  Whether no user has the email or the stored user's hash does not
    match the password, [login] throws the same error, with the same
    message, after the same single query; the controller answers both
    with the same 401. *)
Theorem login_failures_indistinguishable `{Collaborators} env db email password :
  (UserModel.by_email (users db) email = None
   ∨ ∃ user, UserModel.by_email (users db) email = Some user
             ∧ comparePassword password (User.password user.2) = false) →
  authService.login email password env db
  = (Throw (Error "Invalid credentials"), logged db [UserFindOne email])
  ∧ authController.login email password env db
    = (Return {| status := 401; json := failure "Invalid credentials" |},
       logged db [UserFindOne email]).
Proof.
  intros [Hnone|(user & Hsome & Hwrong)]; run_auth.
  - by rewrite Hnone.
  - by rewrite Hsome, Hwrong.
Qed.

Lemma register_existing `{Collaborators} env db name email password k u :
  users db !! k = Some u → User.email u = email →
  authService.register name email password env db
  = (Throw (Error "User already exists with this email"), logged db [UserFindOne email]).
Proof.
  intros Hk He. run_auth.
  destruct (UserModel.by_email (users db) email) as [user|] eqn:Hfind; [done|].
  by destruct (proj1 (by_email_None _ _) Hfind k u).
Qed.

Lemma register_unique `{Collaborators} env db name email password :
  unique_emails db →
  unique_emails (authService.register name email password env db).2.
Proof.
  intros Huniq. run_auth.
  destruct (UserModel.by_email (users db) email) as [user|] eqn:Hfind; [done|].
  simpl. destruct (userValidation name email password); [done|].
  simpl. destruct (users db !! freshId env) eqn:Hfresh; [done|].
  simpl. intros i j u v Hi Hj Heq. simpl in *.
  pose proof (proj1 (by_email_None _ _) Hfind) as Hnew.
  destruct (decide (i = freshId env)) as [->|Hni];
    destruct (decide (j = freshId env)) as [->|Hnj]; [done|..].
  - rewrite lookup_insert_eq in Hi. rewrite lookup_insert_ne in Hj by done.
    simplify_eq. simpl in Heq. by destruct (Hnew j v).
  - rewrite lookup_insert_eq in Hj. rewrite lookup_insert_ne in Hi by done.
    simplify_eq. simpl in Heq. by destruct (Hnew i u).
  - rewrite lookup_insert_ne in Hi, Hj by done. by apply (Huniq i j u v).
Qed.

(** C4.  Registering an email that a stored user already has throws
    'User already exists with this email' (answered 400, not 500) after the
    one lookup, and stores nothing; every registration keeps the emails of
    the stored users pairwise distinct, so they are distinct after any
    sequence of registrations on an empty store. *)
Theorem register_keeps_emails_unique `{Collaborators} :
  (∀ env db name email password k u,
     users db !! k = Some u → User.email u = email →
     authService.register name email password env db
     = (Throw (Error "User already exists with this email"),
        logged db [UserFindOne email])
     ∧ authController.register name email password env db
       = (Return {| status := 400;
                    json := failure "User already exists with this email" |},
          logged db [UserFindOne email])
     ∧ users (logged db [UserFindOne email]) = users db)
  ∧ (∀ env db name email password,
       unique_emails db →
       unique_emails (authService.register name email password env db).2)
  ∧ (∀ requests, unique_emails (registrations requests empty_db)).
Proof.
  split; [|split].
  - intros env db name email password k u Hk He.
    pose proof (register_existing env db name email password k u Hk He) as Hreg.
    split; [done|]. split; [|done].
    unfold authController.register, try_catch, mbind, M_bind, bind.
    by rewrite Hreg.
  - intros. by apply register_unique.
  - intros requests.
    assert (unique_emails empty_db) as Hempty.
    { intros i j u v Hi. simpl in Hi. by rewrite lookup_empty in Hi. }
    revert Hempty. generalize empty_db.
    induction requests as [|[env [[name email] password]] rest IH]; intros db Hdb;
      simpl; [done|].
    apply IH. by apply register_unique.
Qed.

(** ** What reaches a response *)

Lemma populated_forget us p :
  PostModel.populated (without_hash <$> us) p = PostModel.populated us p.
Proof.
  unfold PostModel.populated. f_equal. rewrite lookup_fmap.
  by destruct (us !! Post.authorId p.2).
Qed.

Lemma oblivious_ret {A} (a : A) : oblivious (ret a).
Proof. done. Qed.

Lemma oblivious_throw {A} e : oblivious (@throw A e).
Proof. done. Qed.

Lemma oblivious_bind {A B} (m : M A) (k : A → M B) :
  oblivious m → (∀ a, oblivious (k a)) → oblivious (m ≫= k).
Proof.
  intros Hm Hk env db. unfold mbind, M_bind, bind. rewrite Hm.
  destruct (m env db) as [[a|e] db']; simpl; [apply Hk|done].
Qed.

Lemma oblivious_try_catch {A} (m : M A) (handler : Exn → M A) :
  oblivious m → (∀ e, oblivious (handler e)) → oblivious (try_catch m handler).
Proof.
  intros Hm Hh env db. unfold try_catch. rewrite Hm.
  destruct (m env db) as [[a|e] db']; simpl; [done|apply Hh].
Qed.

Lemma oblivious_record e : oblivious (record e).
Proof. done. Qed.

Lemma oblivious_findById id : oblivious (PostModel.findById id).
Proof. intros env db. run. by destruct (castObjectId id). Qed.

Lemma oblivious_findByIdAndUpdate id title content :
  oblivious (PostModel.findByIdAndUpdate id title content).
Proof.
  intros env db. run. destruct (castObjectId id) as [k|]; simpl; [|done].
  destruct (PostModel.validate _ _); simpl; [|done].
  by destruct (posts db !! k).
Qed.

Lemma oblivious_findByIdAndDelete id : oblivious (PostModel.findByIdAndDelete id).
Proof.
  intros env db. run. destruct (castObjectId id) as [k|]; simpl; [|done].
  by destruct (posts db !! k).
Qed.

Lemma oblivious_create title content author :
  oblivious (PostModel.create title content author).
Proof.
  intros env db. run. destruct (PostModel.validate _ _); simpl; [|done].
  by destruct (posts db !! freshId env).
Qed.

Lemma oblivious_find_sorted : oblivious PostModel.find_sorted.
Proof. done. Qed.

Lemma oblivious_populate p : oblivious (PostModel.populate p).
Proof. intros env db. run. by rewrite populated_forget. Qed.

Lemma oblivious_populate_all ps : oblivious (PostModel.populate_all ps).
Proof.
  intros env db. run. do 2 f_equal. apply list_fmap_ext. intros _ p _.
  apply populated_forget.
Qed.

Create HintDb oblivious.
#[local] Hint Resolve oblivious_ret oblivious_throw oblivious_record oblivious_findById
  oblivious_findByIdAndUpdate oblivious_findByIdAndDelete oblivious_create
  oblivious_find_sorted oblivious_populate oblivious_populate_all : oblivious.

Ltac oblivious_step :=
  first
    [ solve [auto with oblivious]
    | apply oblivious_try_catch; [|intros ?]
    | apply oblivious_bind; [|intros ?]
    | case_match ].

Lemma oblivious_authorize req : oblivious (authorize req).
Proof. unfold authorize. repeat oblivious_step. Qed.

Lemma oblivious_routes req :
  oblivious (router.get_all req) ∧ oblivious (router.get_one req)
  ∧ oblivious (router.post_ req) ∧ oblivious (router.put req)
  ∧ oblivious (router.delete req).
Proof.
  assert (∀ p, oblivious (PostModel.populate_found p)) as Hfound.
  { intros [p|]; unfold PostModel.populate_found; repeat oblivious_step. }
  split_and!.
  - unfold router.get_all, postController.getAllPosts, postService.getAllPosts.
    repeat oblivious_step.
  - unfold router.get_one, postController.getPostById, postService.getPostById.
    repeat oblivious_step; apply Hfound.
  - unfold router.post_, postController.createPost, postService.createPost.
    repeat oblivious_step.
  - unfold router.put, router.guarded, postController.updatePost, postService.updatePost.
    repeat oblivious_step; first [apply oblivious_authorize | apply Hfound].
  - unfold router.delete, router.guarded, postController.deletePost, postService.deletePost.
    repeat oblivious_step; apply oblivious_authorize.
Qed.

(** C6.  What [register] and [login] return is the object with exactly the
    keys id, name, email and token, built from the user's identity, name
    and email and the token for that identity; a populated author has
    exactly the keys _id, name and email; and every post route answers the
    same whether the store holds the users' hashes or blanks in their
    place, so no stored hash reaches a response. *)
Theorem responses_never_carry_password_hash `{Collaborators} :
  (∀ env db name email password data db',
     authService.register name email password env db = (Return data, db') →
     data = JObj [("id", JStr (freshId env));
                  ("name", JStr name);
                  ("email", JStr email);
                  ("token", JStr (generateToken (now env) (freshId env)))]
     ∧ keys data = ["id"; "name"; "email"; "token"])
  ∧ (∀ env db email password data db',
       authService.login email password env db = (Return data, db') →
       ∃ k u,
         users db !! k = Some u
         ∧ data = JObj [("id", JStr k);
                        ("name", JStr (User.name u));
                        ("email", JStr (User.email u));
                        ("token", JStr (generateToken (now env) k))]
         ∧ keys data = ["id"; "name"; "email"; "token"])
  ∧ (∀ author, keys (author_json (Some author)) = ["_id"; "name"; "email"])
  ∧ (∀ req,
       oblivious (router.get_all req) ∧ oblivious (router.get_one req)
       ∧ oblivious (router.post_ req) ∧ oblivious (router.put req)
       ∧ oblivious (router.delete req)).
Proof.
  split_and!.
  - intros env db name email password data db' Hrun. run_auth.
    destruct (UserModel.by_email (users db) email); [done|]. simpl in Hrun.
    destruct (userValidation name email password); [done|]. simpl in Hrun.
    destruct (users db !! freshId env); [done|]. simpl in Hrun.
    by inversion Hrun.
  - intros env db email password data db' Hrun. run_auth.
    destruct (UserModel.by_email (users db) email) as [[k u]|] eqn:Hfind; [|done].
    simpl in Hrun. destruct (comparePassword password (User.password u)); [|done].
    simpl in Hrun. apply by_email_Some in Hfind as [Hk _].
    exists k, u. by inversion Hrun.
  - done.
  - apply oblivious_routes.
Qed.

(** ** Listing *)

#[local] Instance newer_first_trans : Transitive PostModel.newer_first.
Proof. intros x y z. unfold PostModel.newer_first. lia. Qed.

#[local] Instance newer_first_total : Total PostModel.newer_first.
Proof. intros x y. unfold PostModel.newer_first. lia. Qed.

Lemma getAllPosts_run env db :
  postService.getAllPosts env db
  = (Return (PostModel.populated (users db)
               <$> merge_sort PostModel.newer_first (map_to_list (posts db))),
     logged db [PostFind; Populate]).
Proof. run. by rewrite <- app_assoc. Qed.

Lemma createPost_inv env db title content author np db' :
  postService.createPost title content author env db = (Return np, db') →
  posts db !! freshId env = None
  ∧ let p := Post.mk (Js.trim title) content author (now env) (now env) in
    np = PostModel.populated (users db) (freshId env, p)
    ∧ users db' = users db
    ∧ posts db' = <[freshId env := p]> (posts db).
Proof.
  intros Hrun. run. unfold PostModel.set_title in Hrun.
  destruct (PostModel.validate _ _); [|done]. simpl in Hrun.
  destruct (posts db !! freshId env); [done|]. simpl in Hrun.
  by inversion Hrun.
Qed.

Lemma sorted_head_newest (x : ObjectId * Post.doc) l y l' :
  StronglySorted PostModel.newer_first l → l = y :: l' → x ∈ l →
  Post.createdAt x.2 ≤ Post.createdAt y.2.
Proof.
  intros Hs -> Hin. apply StronglySorted_cons in Hs as [Hall _].
  apply elem_of_cons in Hin as [->|Hin]; [done|].
  rewrite Forall_forall in Hall. by apply Hall.
Qed.

(** C9, as stated, fails.  Alice's post was created at 5.  A post created
    when the clock reads 3 (the clock was set back) is listed after it, and
    so is a post created when the clock reads 5 again (a tie, which the
    sort on [createdAt] alone does not break): in neither case is the new
    post at the front of the next listing. *)
Lemma new_post_listed_last :
  let late := postService.createPost "Second" "Text" alice (env_at 3 second_post)
                sample_db in
  let tied := postService.createPost "Second" "Text" alice (env_at 5 second_post)
                sample_db in
  let older := PostModel.populated (users sample_db) (first_post, alices_post) in
  (∃ np, late.1 = Return np
         ∧ pp_id np = second_post ∧ pp_createdAt np = 3 ∧ pp_createdAt older = 5
         ∧ (postService.getAllPosts (env_at 10 bob) late.2).1 = Return [older; np])
  ∧ (∃ np, tied.1 = Return np
           ∧ pp_id np = second_post ∧ pp_createdAt np = 5 ∧ pp_createdAt older = 5
           ∧ (postService.getAllPosts (env_at 10 bob) tied.2).1 = Return [older; np]).
Proof.
  intros late tied older. split; eexists; split_and!; by vm_compute.
Qed.

(** C9, amended.  [getAllPosts] returns every stored post, populated, each
    before any post adjacent to it that was created earlier; and once a
    post has been created at a clock reading strictly later than the
    [createdAt] of every stored post, the next listing starts with it. *)
Theorem list_newest_first env db :
  ∃ ps,
    postService.getAllPosts env db = (Return ps, logged db [PostFind; Populate])
    ∧ ps ≡ₚ PostModel.populated (users db) <$> map_to_list (posts db)
    ∧ Sorted newest_first ps
    ∧ (∀ title content author np db1 env2,
         (∀ k p, posts db !! k = Some p → Post.createdAt p < now env) →
         postService.createPost title content author env db = (Return np, db1) →
         ∃ rest,
           postService.getAllPosts env2 db1
           = (Return (np :: rest), logged db1 [PostFind; Populate])).
Proof.
  eexists. split; [apply getAllPosts_run|]. split; [|split].
  - by rewrite merge_sort_Permutation.
  - apply Sorted_fmap with (R1 := PostModel.newer_first); [done|].
    apply (Sorted_merge_sort _).
  - intros title content author np db1 env2 Hlater Hcreate.
    apply createPost_inv in Hcreate as (Hfresh & Hnp & Husers & Hposts).
    rewrite getAllPosts_run, Husers, Hposts.
    set (p := Post.mk (Js.trim title) content author (now env) (now env)) in *.
    set (l := merge_sort PostModel.newer_first
                (map_to_list (<[freshId env := p]> (posts db)))).
    assert (StronglySorted PostModel.newer_first l) as Hsorted
      by apply (StronglySorted_merge_sort _).
    assert (∀ x, x ∈ l ↔ <[freshId env := p]> (posts db) !! x.1 = Some x.2) as Hin.
    { intros [k d]. unfold l. rewrite merge_sort_Permutation.
      apply elem_of_map_to_list. }
    assert ((freshId env, p) ∈ l) as Hnew
      by (apply Hin; simpl; apply lookup_insert_eq).
    destruct l as [|y l'] eqn:Hl; [by apply elem_of_nil in Hnew|].
    pose proof (sorted_head_newest _ _ _ _ Hsorted eq_refl Hnew) as Hle.
    assert (y ∈ y :: l') as Hy by left. apply Hin in Hy.
    destruct (decide (y.1 = freshId env)) as [Hk|Hk].
    + rewrite Hk, lookup_insert_eq in Hy. exists (PostModel.populated (users db) <$> l').
      rewrite fmap_cons. do 3 f_equal. rewrite Hnp. f_equal.
      destruct y as [k d]; simpl in *. by simplify_eq.
    + rewrite lookup_insert_ne in Hy by done.
      apply Hlater in Hy. simpl in Hle. lia.
Qed.

(** ** The statements at the sample data *)

#[local] Existing Instance sample_collaborators.

(** Bob's update of Alice's post is answered 403. *)
Lemma update_delete_owner_only_witness :
  let req := request first_post bob [("title", "Mine"); ("content", "Now")] in
  castObjectId (params_id req) = Some first_post
  ∧ posts sample_db !! first_post = Some alices_post
  ∧ Post.authorId alices_post ≠ user_id req
  ∧ router.put req sample_env sample_db
    = (Return forbidden,
       logged sample_db [PostFindById first_post; OwnerCompare alice bob]).
Proof.
  intros req.
  assert (castObjectId (params_id req) = Some first_post) as Hc by reflexivity.
  assert (posts sample_db !! first_post = Some alices_post) as Hp by reflexivity.
  assert (Post.authorId alices_post ≠ user_id req) as Ho by discriminate.
  split_and!; [done..|].
  exact (proj1 (proj1 (update_delete_owner_only sample_env sample_db req
                         first_post alices_post Hc Hp) Ho)).
Defined.

(** A well-formed id that names no post is answered 404, for Bob as for
    Alice. *)
Lemma authorize_missing_uniform_witness :
  let req := request second_post alice [] in
  authorize (as_caller req bob) sample_env sample_db
  = (Return (Respond not_found), logged sample_db [PostFindById second_post]).
Proof.
  intros req.
  apply (authorize_missing_uniform sample_env sample_db req).
  intros k p Hk.
  change (({[first_post := alices_post]} : gmap string Post.doc) !! k = Some p) in Hk.
  apply lookup_singleton_Some in Hk as [<- _]. discriminate.
Defined.

(** A wrong password for Alice's email is answered as an unknown email is. *)
Lemma login_failures_indistinguishable_witness :
  authController.login "alice@example.com" "guess" sample_env sample_db
  = (Return {| status := 401; json := failure "Invalid credentials" |},
     logged sample_db [UserFindOne "alice@example.com"])
  ∧ authController.login "carol@example.com" "guess" sample_env sample_db
    = (Return {| status := 401; json := failure "Invalid credentials" |},
       logged sample_db [UserFindOne "carol@example.com"]).
Proof.
  split.
  - apply (login_failures_indistinguishable sample_env sample_db
             "alice@example.com" "guess").
    right. exists (alice, User.mk "Alice" "alice@example.com" "hash:secret").
    split; reflexivity.
  - apply (login_failures_indistinguishable sample_env sample_db
             "carol@example.com" "guess").
    left. reflexivity.
Defined.

(** Registering Alice's email again is answered 400 and stores nothing. *)
Lemma register_keeps_emails_unique_witness :
  authController.register "Alice II" "alice@example.com" "other" sample_env sample_db
  = (Return {| status := 400; json := failure "User already exists with this email" |},
     logged sample_db [UserFindOne "alice@example.com"])
  ∧ unique_emails
      (registrations
         [(sample_env, ("Alice", "alice@example.com", "secret"));
          ((env_at 10 bob), ("Alice II", "alice@example.com", "other"))]
         empty_db).
Proof.
  split.
  - apply (proj1 register_keeps_emails_unique sample_env sample_db
             "Alice II" "alice@example.com" "other" alice
             (User.mk "Alice" "alice@example.com" "hash:secret")); reflexivity.
  - apply (proj2 (proj2 register_keeps_emails_unique)).
Defined.

(** Alice's update of her post, with an owner named in the body. *)
Lemma update_changes_title_content_only_witness :
  let req := request first_post alice [("title", " New "); ("content", "Text")] in
  let out := postController.updatePost req sample_env sample_db in
  status (response out) = 200%nat
  ∧ posts out.2 !! first_post = Some (Post.mk "New" "Text" alice 5 9)
  ∧ postController.updatePost
      (request first_post alice [("authorId", bob); ("title", " New "); ("content", "Text")])
      sample_env sample_db
    = (Return (response out), out.2).
Proof.
  intros req out.
  assert (postController.updatePost req sample_env sample_db
          = (Return (response out), out.2)) as Hrun by (vm_compute; reflexivity).
  assert (status (response out) = 200%nat) as Hstatus by reflexivity.
  split; [done|]. split; [by vm_compute|].
  exact (proj2 (update_changes_title_content_only sample_env sample_db req
                  (response out) out.2 Hrun Hstatus) bob).
Defined.

(** What Carol's registration returns. *)
Lemma responses_never_carry_password_hash_witness :
  let out := authService.register "Carol" "carol@example.com" "secret"
               sample_env sample_db in
  ∃ data,
    out.1 = Return data
    ∧ data = JObj [("id", JStr second_post); ("name", JStr "Carol");
                   ("email", JStr "carol@example.com");
                   ("token", JStr "token:000000000000000000000002")].
Proof.
  intros out.
  assert (∃ data, out = (Return data, out.2)) as [data Hrun]
    by (eexists; vm_compute; reflexivity).
  exists data. split; [by rewrite Hrun|].
  exact (proj1 (proj1 responses_never_carry_password_hash sample_env sample_db
                  "Carol" "carol@example.com" "secret" data out.2 Hrun)).
Defined.

(** A post with a title and one character of white space as content. *)
Lemma create_rejected_iff_witness :
  let req := request "" alice [("title", "Title"); ("content", " ")] in
  ∃ res db',
    postController.createPost req sample_env sample_db = (Return res, db')
    ∧ (status res = 400%nat
       ↔ Js.trim (str (body req !! "title")) = "" ∨ str (body req !! "content") = "")
    ∧ (status res ≠ 400%nat → status res = 201%nat).
Proof.
  intros req. apply (create_rejected_iff sample_env sample_db req). reflexivity.
Defined.

(** Alice's update of her post: two queries by id. *)
Lemma guard_attaches_post_handlers_query_again_witness :
  let req := request first_post alice [("title", "New"); ("content", "Text")] in
  post_queries (log (router.put req sample_env sample_db).2)
  = [PostFindById first_post; PostFindByIdAndUpdate first_post].
Proof.
  intros req.
  exact (proj1 (proj2 (proj2
           (guard_attaches_post_handlers_query_again sample_env sample_db req
              first_post alices_post eq_refl eq_refl eq_refl)))).
Defined.

(** A post created at 9, after Alice's of 5, heads the next listing. *)
Lemma list_newest_first_witness :
  let out := postService.createPost "Second" "Text" alice sample_env sample_db in
  ∃ np rest,
    out.1 = Return np
    ∧ pp_id np = second_post
    ∧ postService.getAllPosts (env_at 10 first_post) out.2
      = (Return (np :: rest), logged out.2 [PostFind; Populate]).
Proof.
  intros out.
  assert (∃ np, out = (Return np, out.2) ∧ pp_id np = second_post) as (np & Hrun & Hid)
    by (eexists; split; [vm_compute; reflexivity|reflexivity]).
  destruct (list_newest_first sample_env sample_db) as (ps & _ & _ & _ & Hfront).
  destruct (Hfront "Second" "Text" alice np out.2 (env_at 10 first_post))
    as [rest Hlist]; [|exact Hrun|].
  - intros k p Hk.
    change (({[first_post := alices_post]} : gmap string Post.doc) !! k = Some p) in Hk.
    apply lookup_singleton_Some in Hk as [_ <-]. simpl. lia.
  - exists np, rest. split; [by rewrite Hrun|]. split; [exact Hid|exact Hlist].
Defined.

(** Alice's update of her post with a title of two spaces is answered 404. *)
Lemma update_failures_reported_as_404_witness :
  let req := request first_post alice [("title", "  "); ("content", "Text")] in
  router.put req sample_env sample_db
  = (Return {| status := 404;
               json := failure "Validation failed: title: Please provide a title" |},
     logged sample_db [PostFindById first_post; OwnerCompare alice alice;
                       PostFindByIdAndUpdate first_post]).
Proof.
  intros req.
  exact (proj2 update_failures_reported_as_404 sample_env sample_db req
           first_post alices_post eq_refl eq_refl eq_refl eq_refl eq_refl eq_refl).
Defined.

(** * Further properties of the code *)

(** ** Trimming *)

Lemma trimEnd_idempotent s : Js.trimEnd (Js.trimEnd s) = Js.trimEnd s.
Proof.
  induction s as [|a s IH]; simpl; [done|].
  destruct (Js.trimEnd s) as [|b t] eqn:Ht.
  - destruct (Js.is_white_space a) eqn:Ha; simpl; [done|]. by rewrite Ha.
  - simpl in *. by rewrite IH.
Qed.

Lemma trimStart_head s :
  Js.trimStart s = "" ∨ ∃ a r, Js.trimStart s = String a r ∧ Js.is_white_space a = false.
Proof.
  induction s as [|a s IH]; simpl; [by left|].
  destruct (Js.is_white_space a) eqn:Ha; [done|]. right. by exists a, s.
Qed.

Lemma trimEnd_head a r :
  Js.is_white_space a = false → ∃ t, Js.trimEnd (String a r) = String a t.
Proof.
  intros Ha. simpl. destruct (Js.trimEnd r); [|by eexists].
  rewrite Ha. by eexists.
Qed.

Lemma trim_idempotent s : Js.trim (Js.trim s) = Js.trim s.
Proof.
  unfold Js.trim. destruct (trimStart_head s) as [->|(a & r & -> & Ha)]; [done|].
  destruct (trimEnd_head a r Ha) as [t Ht]. rewrite Ht. simpl. rewrite Ha.
  rewrite <- Ht. apply trimEnd_idempotent.
Qed.

(** ** The guard and the guarded routes, case by case *)

Lemma authorize_missing env db req k :
  castObjectId (params_id req) = Some k → posts db !! k = None →
  authorize req env db
  = (Return (Respond not_found), logged db [PostFindById (params_id req)]).
Proof.
  intros Hc Hp. unfold authorize, try_catch, mbind, M_bind, bind.
  by rewrite (findById_missing _ _ _ _ Hc Hp).
Qed.

Lemma authorize_malformed env db req :
  castObjectId (params_id req) = None →
  authorize req env db
  = (Return (Respond {| status := 500; json := failure "Error checking authorization" |}),
     logged db [PostFindById (params_id req)]).
Proof.
  intros Hc. unfold authorize, try_catch, mbind, M_bind, bind.
  by rewrite (findById_malformed _ _ _ Hc).
Qed.

(** X1.  The guard always answers or hands on, and never writes; it hands
    the request on exactly when the id casts to the id of a stored post
    whose [authorId] is the caller, and the request it hands on is the one
    it got with that post attached. *)
Theorem authorize_passes_iff_owner env db req :
  ∃ h db',
    authorize req env db = (Return h, db')
    ∧ posts db' = posts db ∧ users db' = users db
    ∧ ((∃ req', h = Next req')
       ↔ ∃ k p, castObjectId (params_id req) = Some k
                ∧ posts db !! k = Some p ∧ Post.authorId p = user_id req)
    ∧ (∀ req', h = Next req' →
         ∃ k p, castObjectId (params_id req) = Some k ∧ posts db !! k = Some p
                ∧ req' = with_post req (Some (k, p))).
Proof.
  destruct (castObjectId (params_id req)) as [k|] eqn:Hc.
  - destruct (posts db !! k) as [p|] eqn:Hp.
    + destruct (decide (Post.authorId p = user_id req)) as [Ho|Ho].
      * eexists _, _. split; [apply (authorize_owner _ _ _ _ _ Hc Hp Ho)|].
        split_and!; try done.
        -- split; [intros _; by exists k, p|intros _; by eexists].
        -- intros req' [= <-]. by exists k, p.
      * eexists _, _. split; [apply (authorize_stranger _ _ _ _ _ Hc Hp Ho)|].
        split_and!; try done.
        split; [by intros [? ?]|]. intros (k' & p' & ? & ? & ?). by simplify_eq.
    + eexists _, _. split; [apply (authorize_missing _ _ _ _ Hc Hp)|].
      split_and!; try done.
      split; [by intros [? ?]|]. intros (k' & p' & ? & ? & ?). by simplify_eq.
  - eexists _, _. split; [apply (authorize_malformed _ _ _ Hc)|].
    split_and!; try done.
    split; [by intros [? ?]|]. by intros (k' & p' & ? & ? & ?).
Qed.

Lemma updatePost_not_truthy env db req :
  Js.truthy (body req !! "title") && Js.truthy (body req !! "content") = false →
  postController.updatePost req env db
  = (Return {| status := 400; json := failure "Please provide title and content" |}, db).
Proof.
  intros Hf. unfold postController.updatePost, try_catch. simpl.
  apply andb_false_iff in Hf as [->| ->]; simpl; [done|].
  by rewrite orb_true_r.
Qed.

Lemma updatePost_blank env db req k :
  castObjectId (params_id req) = Some k →
  Js.truthy (body req !! "title") = true →
  Js.truthy (body req !! "content") = true →
  Js.trim (str (body req !! "title")) = "" →
  postController.updatePost req env db
  = (Return {| status := 404;
               json := failure "Validation failed: title: Please provide a title" |},
     logged db [PostFindByIdAndUpdate (params_id req)]).
Proof.
  intros Hcast Ht Hc Hb. destruct (truthy_str _ Hc) as [_ Hc'].
  unfold postController.updatePost, try_catch, mbind, M_bind, bind. simpl.
  rewrite Ht, Hc. run. rewrite Hcast. simpl.
  unfold PostModel.set_title. by rewrite (validate_blank_title _ _ Hb Hc').
Qed.

Lemma updatePost_found env db req k p :
  castObjectId (params_id req) = Some k → posts db !! k = Some p →
  Js.truthy (body req !! "title") = true →
  Js.truthy (body req !! "content") = true →
  Js.trim (str (body req !! "title")) ≠ "" →
  let p' := Post.mk (Js.trim (str (body req !! "title"))) (str (body req !! "content"))
              (Post.authorId p) (Post.createdAt p) (now env) in
  postController.updatePost req env db
  = (Return {| status := 200;
               json := JObj [("success", JBool true);
                             ("message", JStr "Post updated successfully");
                             ("data", post_json (PostModel.populated (users db) (k, p')))] |},
     {| users := users db; posts := <[k := p']> (posts db);
        log := log db ++ [PostFindByIdAndUpdate (params_id req); Populate] |}).
Proof.
  intros Hcast Hp Ht Hc Hb p'. destruct (truthy_str _ Hc) as [_ Hc'].
  unfold postController.updatePost, try_catch, mbind, M_bind, bind. simpl.
  rewrite Ht, Hc. simpl. unfold mbind, M_bind, bind.
  by rewrite (updatePost_service_found _ _ _ _ _ _ _ Hcast Hp Hb Hc').
Qed.

(** X2.  PUT /posts/:id always answers, with 200, 400, 403, 404 or 500; it
    answers 200 exactly when the id names a stored post of the caller and
    the body has a title that is not all white space and a non-empty
    content, and 400 exactly when the post is the caller's and the title or
    the content is missing or empty; unless it answers 200 no post has
    changed, and no user ever has. *)
Theorem put_writes_only_on_200 env db req :
  ∃ res db',
    router.put req env db = (Return res, db')
    ∧ status res ∈ [200; 400; 403; 404; 500]%nat
    ∧ (status res = 200%nat
       ↔ ∃ k p, castObjectId (params_id req) = Some k ∧ posts db !! k = Some p
                ∧ Post.authorId p = user_id req
                ∧ Js.trim (str (body req !! "title")) ≠ ""
                ∧ str (body req !! "content") ≠ "")
    ∧ (status res = 400%nat
       ↔ ∃ k p, castObjectId (params_id req) = Some k ∧ posts db !! k = Some p
                ∧ Post.authorId p = user_id req
                ∧ (str (body req !! "title") = "" ∨ str (body req !! "content") = ""))
    ∧ (status res ≠ 200%nat → posts db' = posts db)
    ∧ users db' = users db.
Proof.
  unfold router.put, router.guarded, mbind, M_bind, bind.
  destruct (castObjectId (params_id req)) as [k|] eqn:Hc.
  2:{ rewrite (authorize_malformed _ _ _ Hc). eexists _, _. split; [done|]. simpl.
      split_and!; try done; [set_solver|..]; split; try done;
        by intros (? & ? & ? & _). }
  destruct (posts db !! k) as [p|] eqn:Hp.
  2:{ rewrite (authorize_missing _ _ _ _ Hc Hp). eexists _, _. split; [done|]. simpl.
      split_and!; try done; [set_solver|..]; split; try done;
        intros (? & ? & ? & ? & _); by simplify_eq. }
  destruct (decide (Post.authorId p = user_id req)) as [Ho|Ho].
  2:{ rewrite (authorize_stranger _ _ _ _ _ Hc Hp Ho). eexists _, _. split; [done|].
      simpl. split_and!; try done; [set_solver|..]; split; try done;
        intros (? & ? & ? & ? & ? & _); by simplify_eq. }
  rewrite (authorize_owner _ _ _ _ _ Hc Hp Ho). cbv beta iota.
  set (req1 := with_post req (Some (k, p))). set (db1 := logged db _).
  destruct (Js.truthy (body req !! "title")) eqn:Ht.
  2:{ rewrite (updatePost_not_truthy env db1 req1) by (simpl; by rewrite Ht).
      eexists _, _. split; [done|]. simpl. apply not_truthy_str in Ht.
      split_and!; try done; [set_solver| |].
      - split; [done|]. intros (? & ? & _ & _ & _ & Hb & _). by rewrite Ht in Hb.
      - split; [|done]. intros _. exists k, p. by auto. }
  destruct (Js.truthy (body req !! "content")) eqn:Hct.
  2:{ rewrite (updatePost_not_truthy env db1 req1) by (simpl; by rewrite Ht, Hct).
      eexists _, _. split; [done|]. simpl. apply not_truthy_str in Hct.
      split_and!; try done; [set_solver| |].
      - split; [done|]. by intros (? & ? & _ & _ & _ & _ & ?).
      - split; [|done]. intros _. exists k, p. by auto. }
  destruct (truthy_str _ Ht) as [_ Ht']. destruct (truthy_str _ Hct) as [_ Hct'].
  destruct (decide (Js.trim (str (body req !! "title")) = "")) as [Hb|Hb].
  - rewrite (updatePost_blank env db1 req1 k Hc Ht Hct Hb).
    eexists _, _. split; [done|]. simpl. split_and!; try done; [set_solver| |].
    + split; [done|]. by intros (? & ? & _ & _ & _ & ? & _).
    + split; [done|]. intros (? & ? & _ & _ & _ & [?|?]); done.
  - rewrite (updatePost_found env db1 req1 k p Hc Hp Ht Hct Hb).
    eexists _, _. split; [done|]. simpl. split_and!; try done; [set_solver| |].
    + split; [|done]. intros _. by exists k, p.
    + split; [done|]. intros (? & ? & _ & _ & _ & [?|?]); done.
Qed.

(** X3.  DELETE /posts/:id always answers, with 200, 403, 404 or 500; it
    answers 200 exactly when the id names a stored post of the caller, and
    then that post, and no other, is gone; otherwise every post is as it
    was.  The users are never touched. *)
Theorem delete_removes_exactly_the_post env db req :
  ∃ res db',
    router.delete req env db = (Return res, db')
    ∧ status res ∈ [200; 403; 404; 500]%nat
    ∧ (status res = 200%nat
       ↔ ∃ k p, castObjectId (params_id req) = Some k ∧ posts db !! k = Some p
                ∧ Post.authorId p = user_id req)
    ∧ (status res = 200%nat →
         ∃ k, castObjectId (params_id req) = Some k
              ∧ posts db' !! k = None
              ∧ ∀ j, j ≠ k → posts db' !! j = posts db !! j)
    ∧ (status res ≠ 200%nat → posts db' = posts db)
    ∧ users db' = users db.
Proof.
  unfold router.delete, router.guarded, mbind, M_bind, bind.
  destruct (castObjectId (params_id req)) as [k|] eqn:Hc.
  2:{ rewrite (authorize_malformed _ _ _ Hc). eexists _, _. split; [done|]. simpl.
      split_and!; try done; [set_solver|]. split; [done|]. by intros (? & ? & ? & _). }
  destruct (posts db !! k) as [p|] eqn:Hp.
  2:{ rewrite (authorize_missing _ _ _ _ Hc Hp). eexists _, _. split; [done|]. simpl.
      split_and!; try done; [set_solver|]. split; [done|].
      intros (? & ? & ? & ? & _); by simplify_eq. }
  destruct (decide (Post.authorId p = user_id req)) as [Ho|Ho].
  2:{ rewrite (authorize_stranger _ _ _ _ _ Hc Hp Ho). eexists _, _. split; [done|].
      simpl. split_and!; try done; [set_solver|]. split; [done|].
      intros (? & ? & ? & ? & ?); by simplify_eq. }
  rewrite (authorize_owner _ _ _ _ _ Hc Hp Ho). cbv beta iota.
  rewrite (deletePost_found env (logged db _) (with_post req (Some (k, p))) k p Hc Hp).
  eexists _, _. split; [done|]. simpl. split_and!; try done; [set_solver| |].
  - split; [|done]. intros _. by exists k, p.
  - intros _. exists k. split; [done|]. split; [apply lookup_delete_eq|].
    intros j Hj. by apply lookup_delete_ne.
Qed.

Lemma getPostById_missing env db req k :
  castObjectId (params_id req) = Some k → posts db !! k = None →
  postController.getPostById req env db
  = (Return not_found, logged db [PostFindById (params_id req)]).
Proof.
  intros Hc Hp. unfold postController.getPostById, postService.getPostById,
    try_catch, mbind, M_bind, bind.
  by rewrite (findById_missing _ _ _ _ Hc Hp).
Qed.

Lemma getPostById_found env db req k p :
  castObjectId (params_id req) = Some k → posts db !! k = Some p →
  postController.getPostById req env db
  = (Return {| status := 200;
               json := JObj [("success", JBool true);
                             ("data", post_json (PostModel.populated (users db) (k, p)))] |},
     logged db [PostFindById (params_id req); Populate]).
Proof.
  intros Hc Hp. unfold postController.getPostById, postService.getPostById,
    try_catch, mbind, M_bind, bind.
  rewrite (findById_found _ _ _ _ _ Hc Hp). run. by rewrite <- app_assoc.
Qed.

Lemma getPostById_malformed env db req :
  castObjectId (params_id req) = None →
  postController.getPostById req env db
  = (Return {| status := 404;
               json := failure (PostModel.cast_message
                                  (stringValue env (params_id req))) |},
     logged db [PostFindById (params_id req)]).
Proof.
  intros Hc. unfold postController.getPostById, postService.getPostById,
    try_catch, mbind, M_bind, bind.
  by rewrite (findById_malformed _ _ _ Hc).
Qed.

Lemma delete_ok_inv env db req res db' :
  router.delete req env db = (Return res, db') →
  status res = 200%nat →
  ∃ k p, castObjectId (params_id req) = Some k ∧ posts db !! k = Some p
         ∧ Post.authorId p = user_id req
         ∧ posts db' = delete k (posts db) ∧ users db' = users db.
Proof.
  unfold router.delete, router.guarded, mbind, M_bind, bind. intros Hrun Hstatus.
  destruct (castObjectId (params_id req)) as [k|] eqn:Hc.
  2:{ rewrite (authorize_malformed _ _ _ Hc) in Hrun.
      injection Hrun as <- <-. simpl in Hstatus. lia. }
  destruct (posts db !! k) as [p|] eqn:Hp.
  2:{ rewrite (authorize_missing _ _ _ _ Hc Hp) in Hrun.
      injection Hrun as <- <-. simpl in Hstatus. lia. }
  destruct (decide (Post.authorId p = user_id req)) as [Ho|Ho].
  2:{ rewrite (authorize_stranger _ _ _ _ _ Hc Hp Ho) in Hrun.
      injection Hrun as <- <-. simpl in Hstatus. lia. }
  rewrite (authorize_owner _ _ _ _ _ Hc Hp Ho) in Hrun. cbv beta iota in Hrun.
  rewrite (deletePost_found env (logged db _) (with_post req (Some (k, p))) k p Hc Hp)
    in Hrun.
  injection Hrun as <- <-. by exists k, p.
Qed.

(** X4.  Once a DELETE has been answered 200, every later request on that
    id, by any caller and with any body, is answered 404 'Post not found':
    GET, PUT and a second DELETE alike. *)
Theorem deleted_post_is_gone env db req res db' :
  router.delete req env db = (Return res, db') →
  status res = 200%nat →
  ∀ env2 req2,
    params_id req2 = params_id req →
    (router.get_one req2 env2 db').1 = Return not_found
    ∧ (router.put req2 env2 db').1 = Return not_found
    ∧ (router.delete req2 env2 db').1 = Return not_found.
Proof.
  intros Hrun Hstatus env2 req2 Hid.
  destruct (delete_ok_inv _ _ _ _ _ Hrun Hstatus) as (k & p & Hc & _ & _ & Hposts & _).
  assert (posts db' !! k = None) as Hgone by (rewrite Hposts; apply lookup_delete_eq).
  rewrite <- Hid in Hc.
  unfold router.get_one, router.put, router.delete, router.guarded, mbind, M_bind, bind.
  rewrite (getPostById_missing _ _ _ _ Hc Hgone), (authorize_missing _ _ _ _ Hc Hgone).
  done.
Qed.

(** ** Creating, then reading *)

Lemma createPost_ok_inv env db req res db' :
  postController.createPost req env db = (Return res, db') →
  status res = 201%nat →
  let p := Post.mk (Js.trim (str (body req !! "title"))) (str (body req !! "content"))
             (user_id req) (now env) (now env) in
  posts db !! freshId env = None
  ∧ Js.trim (str (body req !! "title")) ≠ "" ∧ str (body req !! "content") ≠ ""
  ∧ posts db' = <[freshId env := p]> (posts db) ∧ users db' = users db
  ∧ json res = JObj [("success", JBool true);
                     ("message", JStr "Post created successfully");
                     ("data", post_json (PostModel.populated (users db) (freshId env, p)))].
Proof.
  intros Hrun Hstatus p.
  unfold postController.createPost, try_catch, mbind, M_bind, bind in Hrun.
  simpl in Hrun.
  destruct (Js.truthy (body req !! "title")) eqn:Ht; simpl in Hrun;
    [|injection Hrun as <- <-; simpl in Hstatus; lia].
  destruct (Js.truthy (body req !! "content")) eqn:Hc; simpl in Hrun;
    [|injection Hrun as <- <-; simpl in Hstatus; lia].
  destruct (truthy_str _ Hc) as [_ Hc2].
  destruct (decide (Js.trim (str (body req !! "title")) = "")) as [Hb|Hb].
  { run. unfold PostModel.set_title in Hrun.
    rewrite (validate_blank_title _ _ Hb Hc2) in Hrun.
    injection Hrun as <- <-; simpl in Hstatus; lia. }
  run. unfold PostModel.set_title in Hrun. rewrite (validate_ok _ _ Hb Hc2) in Hrun.
  simpl in Hrun. destruct (posts db !! freshId env) eqn:Hfresh; simpl in Hrun;
    [injection Hrun as <- <-; simpl in Hstatus; lia|].
  by injection Hrun as <- <-.
Qed.

(** X5.  A create answered 201 stored, under the generated id, the trimmed
    title and the content as sent, with the caller as [authorId] (whatever
    else the body names) and both timestamps at the clock's reading, and
    left every other post and every user alone; a GET of that id afterwards
    is answered 200 with the very document the create returned. *)
Theorem created_post_reads_back env db req res db' :
  postController.createPost req env db = (Return res, db') →
  status res = 201%nat →
  ∃ data,
    json res = JObj [("success", JBool true);
                     ("message", JStr "Post created successfully");
                     ("data", data)]
    ∧ posts db' !! freshId env
      = Some (Post.mk (Js.trim (str (body req !! "title"))) (str (body req !! "content"))
                (user_id req) (now env) (now env))
    ∧ (∀ j, j ≠ freshId env → posts db' !! j = posts db !! j)
    ∧ users db' = users db
    ∧ ∀ env2 req2,
        castObjectId (params_id req2) = Some (freshId env) →
        (router.get_one req2 env2 db').1
        = Return {| status := 200;
                    json := JObj [("success", JBool true); ("data", data)] |}.
Proof.
  intros Hrun Hstatus.
  destruct (createPost_ok_inv _ _ _ _ _ Hrun Hstatus)
    as (Hfresh & _ & _ & Hposts & Husers & Hjson).
  eexists. split; [exact Hjson|]. rewrite Hposts. split_and!.
  - apply lookup_insert_eq.
  - intros j Hj. by apply lookup_insert_ne.
  - done.
  - intros env2 req2 Hc. unfold router.get_one.
    rewrite (getPostById_found env2 db' req2 (freshId env) _ Hc)
      by (rewrite Hposts; apply lookup_insert_eq).
    simpl. by rewrite Husers.
Qed.

(** X6.  After a create answered 201, the guard lets a request on the new
    post through exactly when its caller is the one who created it. *)
Theorem only_creator_passes_guard env db req res db' :
  postController.createPost req env db = (Return res, db') →
  status res = 201%nat →
  ∀ env2 req2,
    castObjectId (params_id req2) = Some (freshId env) →
    (∃ req3, (authorize req2 env2 db').1 = Return (Next req3))
    ↔ user_id req2 = user_id req.
Proof.
  intros Hrun Hstatus env2 req2 Hc.
  destruct (createPost_ok_inv _ _ _ _ _ Hrun Hstatus) as (_ & _ & _ & Hposts & _ & _).
  assert (posts db' !! freshId env
          = Some (Post.mk (Js.trim (str (body req !! "title")))
                    (str (body req !! "content")) (user_id req) (now env) (now env)))
    as Hp by (rewrite Hposts; apply lookup_insert_eq).
  destruct (decide (user_id req = user_id req2)) as [Ho|Ho].
  - rewrite (authorize_owner env2 db' req2 _ _ Hc Hp Ho). simpl.
    split; [done|]. intros _. by eexists.
  - rewrite (authorize_stranger env2 db' req2 _ _ Hc Hp Ho). simpl.
    split; [by intros [? ?]|]. intros ?. by destruct Ho.
Qed.

(** X7.  GET /posts/:id never writes and always answers, with 200 or 404:
    200 with the populated post exactly when the id names a stored post;
    404 'Post not found' when the id is well formed and names none; and 404
    with the cast error's own message, which names the id as the runtime
    renders it, when the id is not an ObjectId. *)
Theorem get_one_answers_200_or_404 env db req :
  ∃ res db',
    router.get_one req env db = (Return res, db')
    ∧ posts db' = posts db ∧ users db' = users db
    ∧ match castObjectId (params_id req) with
      | None =>
          res = {| status := 404;
                   json := failure (PostModel.cast_message
                                      (stringValue env (params_id req))) |}
      | Some k =>
          match posts db !! k with
          | None => res = not_found
          | Some p =>
              res = {| status := 200;
                       json := JObj [("success", JBool true);
                                     ("data", post_json
                                                (PostModel.populated (users db) (k, p)))] |}
          end
      end.
Proof.
  unfold router.get_one.
  destruct (castObjectId (params_id req)) as [k|] eqn:Hc.
  - destruct (posts db !! k) as [p|] eqn:Hp.
    + rewrite (getPostById_found _ _ _ _ _ Hc Hp). by eexists _, _.
    + rewrite (getPostById_missing _ _ _ _ Hc Hp). by eexists _, _.
  - rewrite (getPostById_malformed _ _ _ Hc). by eexists _, _.
Qed.

(** X8.  GET /posts never writes and always answers 200; its [count] is the
    number of stored posts and so is the length of its [data]. *)
Theorem get_all_counts_every_post env db req :
  ∃ items,
    router.get_all req env db
    = (Return {| status := 200;
                 json := JObj [("success", JBool true);
                               ("count", JNum (Z.of_nat (size (posts db))));
                               ("data", JArr items)] |},
       logged db [PostFind; Populate])
    ∧ length items = size (posts db).
Proof.
  unfold router.get_all, postController.getAllPosts, try_catch, mbind, M_bind, bind.
  rewrite getAllPosts_run. simpl.
  assert (length (merge_sort PostModel.newer_first (map_to_list (posts db)))
          = size (posts db)) as Hlen.
  { rewrite merge_sort_Permutation. apply length_map_to_list. }
  eexists. rewrite !length_fmap, Hlen. split; [reflexivity|].
  by rewrite !length_fmap.
Qed.

(** ** What the store holds *)

Lemma well_formed_same db db' :
  posts db' = posts db → well_formed_posts db → well_formed_posts db'.
Proof. intros Heq Hwf k p. rewrite Heq. apply Hwf. Qed.

Lemma well_formed_insert db db' k title content author created updated :
  posts db' = <[k := Post.mk (Js.trim title) content author created updated]> (posts db) →
  Js.trim title ≠ "" → content ≠ "" →
  well_formed_posts db → well_formed_posts db'.
Proof.
  intros Heq Ht Hc Hwf j p. rewrite Heq.
  destruct (decide (k = j)) as [->|Hne].
  - rewrite lookup_insert_eq. intros [= <-]. simpl.
    by rewrite trim_idempotent.
  - rewrite lookup_insert_ne by done. apply Hwf.
Qed.

Lemma well_formed_delete db db' k :
  posts db' = delete k (posts db) → well_formed_posts db → well_formed_posts db'.
Proof.
  intros Heq Hwf j p. rewrite Heq. intros Hj.
  apply lookup_delete_Some in Hj as [_ Hj]. by apply (Hwf j).
Qed.

Lemma put_posts env db req :
  posts (router.put req env db).2 = posts db
  ∨ ∃ k p,
      castObjectId (params_id req) = Some k ∧ posts db !! k = Some p
      ∧ Post.authorId p = user_id req
      ∧ Js.trim (str (body req !! "title")) ≠ "" ∧ str (body req !! "content") ≠ ""
      ∧ posts (router.put req env db).2
        = <[k := Post.mk (Js.trim (str (body req !! "title")))
                  (str (body req !! "content"))
                  (Post.authorId p) (Post.createdAt p) (now env)]> (posts db).
Proof.
  unfold router.put, router.guarded, mbind, M_bind, bind.
  destruct (castObjectId (params_id req)) as [k|] eqn:Hc;
    [|rewrite (authorize_malformed _ _ _ Hc); by left].
  destruct (posts db !! k) as [p|] eqn:Hp;
    [|rewrite (authorize_missing _ _ _ _ Hc Hp); by left].
  destruct (decide (Post.authorId p = user_id req)) as [Ho|Ho];
    [|rewrite (authorize_stranger _ _ _ _ _ Hc Hp Ho); by left].
  rewrite (authorize_owner _ _ _ _ _ Hc Hp Ho). cbv beta iota.
  set (req1 := with_post req (Some (k, p))). set (db1 := logged db _).
  destruct (Js.truthy (body req !! "title") && Js.truthy (body req !! "content"))
    eqn:Htc; [|rewrite (updatePost_not_truthy env db1 req1 Htc); by left].
  apply andb_true_iff in Htc as [Ht Hct].
  destruct (truthy_str _ Hct) as [_ Hct'].
  destruct (decide (Js.trim (str (body req !! "title")) = "")) as [Hb|Hb].
  - rewrite (updatePost_blank env db1 req1 k Hc Ht Hct Hb). by left.
  - rewrite (updatePost_found env db1 req1 k p Hc Hp Ht Hct Hb). right.
    by exists k, p.
Qed.

Lemma delete_posts env db req :
  posts (router.delete req env db).2 = posts db
  ∨ ∃ k, posts (router.delete req env db).2 = delete k (posts db).
Proof.
  unfold router.delete, router.guarded, mbind, M_bind, bind.
  destruct (castObjectId (params_id req)) as [k|] eqn:Hc;
    [|rewrite (authorize_malformed _ _ _ Hc); by left].
  destruct (posts db !! k) as [p|] eqn:Hp;
    [|rewrite (authorize_missing _ _ _ _ Hc Hp); by left].
  destruct (decide (Post.authorId p = user_id req)) as [Ho|Ho];
    [|rewrite (authorize_stranger _ _ _ _ _ Hc Hp Ho); by left].
  rewrite (authorize_owner _ _ _ _ _ Hc Hp Ho). cbv beta iota.
  rewrite (deletePost_found env (logged db _) (with_post req (Some (k, p))) k p Hc Hp).
  right. by exists k.
Qed.

Lemma create_posts env db req :
  posts (router.post_ req env db).2 = posts db
  ∨ (posts db !! freshId env = None
     ∧ Js.trim (str (body req !! "title")) ≠ "" ∧ str (body req !! "content") ≠ ""
     ∧ posts (router.post_ req env db).2
       = <[freshId env := Post.mk (Js.trim (str (body req !! "title")))
                            (str (body req !! "content"))
                            (user_id req) (now env) (now env)]> (posts db)).
Proof.
  unfold router.post_, postController.createPost, try_catch, mbind, M_bind, bind. simpl.
  destruct (Js.truthy (body req !! "title")) eqn:Ht; simpl; [|by left].
  destruct (Js.truthy (body req !! "content")) eqn:Hc; simpl; [|by left].
  destruct (truthy_str _ Hc) as [_ Hc2].
  destruct (decide (Js.trim (str (body req !! "title")) = "")) as [Hb|Hb].
  - run. unfold PostModel.set_title. rewrite (validate_blank_title _ _ Hb Hc2). by left.
  - run. unfold PostModel.set_title. rewrite (validate_ok _ _ Hb Hc2). simpl.
    destruct (posts db !! freshId env) eqn:Hfresh; simpl; [by left|by right].
Qed.

Lemma get_all_posts env db req : posts (router.get_all req env db).2 = posts db.
Proof.
  unfold router.get_all, postController.getAllPosts, try_catch, mbind, M_bind, bind.
  by rewrite getAllPosts_run.
Qed.

Lemma get_one_posts env db req : posts (router.get_one req env db).2 = posts db.
Proof.
  unfold router.get_one.
  destruct (castObjectId (params_id req)) as [k|] eqn:Hc.
  - destruct (posts db !! k) as [p|] eqn:Hp.
    + by rewrite (getPostById_found _ _ _ _ _ Hc Hp).
    + by rewrite (getPostById_missing _ _ _ _ Hc Hp).
  - by rewrite (getPostById_malformed _ _ _ Hc).
Qed.

(** X9.  Whatever is requested on whichever of the five routes, if every
    stored post had a trimmed, non-empty title and a non-empty content
    before, so has every stored post afterwards. *)
Theorem routes_keep_posts_well_formed route env db req :
  route ∈ routes →
  well_formed_posts db →
  well_formed_posts (route req env db).2.
Proof.
  unfold routes. intros Hroute Hwf.
  repeat (apply elem_of_cons in Hroute as [->|Hroute]).
  - apply (well_formed_same db); [apply get_all_posts|done].
  - apply (well_formed_same db); [apply get_one_posts|done].
  - destruct (create_posts env db req) as [Heq|(_ & Ht & Hc & Heq)].
    + by apply (well_formed_same db).
    + by apply (well_formed_insert db _ _ _ _ _ _ _ Heq).
  - destruct (put_posts env db req) as [Heq|(k & p & _ & _ & _ & Ht & Hc & Heq)].
    + by apply (well_formed_same db).
    + by apply (well_formed_insert db _ _ _ _ _ _ _ Heq).
  - destruct (delete_posts env db req) as [Heq|[k Heq]].
    + by apply (well_formed_same db).
    + by apply (well_formed_delete db _ k).
  - by apply elem_of_nil in Hroute.
Qed.

(** X10.  When the owner sends a stored post's own title and content back
    (the title being trimmed and both non-empty, as the routes keep them),
    PUT answers 200 and the post is as it was but for [updatedAt]. *)
Theorem saving_unchanged_post_touches_updatedAt_only env db req k p :
  well_formed_posts db →
  castObjectId (params_id req) = Some k →
  posts db !! k = Some p →
  Post.authorId p = user_id req →
  body req !! "title" = Some (Post.title p) →
  body req !! "content" = Some (Post.content p) →
  ∃ res db',
    router.put req env db = (Return res, db')
    ∧ status res = 200%nat
    ∧ posts db'
      = <[k := Post.mk (Post.title p) (Post.content p) (Post.authorId p)
                 (Post.createdAt p) (now env)]> (posts db).
Proof.
  intros Hwf Hc Hp Ho Ht Hct.
  destruct (Hwf k p Hp) as (Htrim & Htitle & Hcontent).
  unfold router.put, router.guarded, mbind, M_bind, bind.
  rewrite (authorize_owner _ _ _ _ _ Hc Hp Ho). cbv beta iota.
  assert (Js.truthy (body req !! "title") = true) as Htt
    by (rewrite Ht; by destruct (Post.title p)).
  assert (Js.truthy (body req !! "content") = true) as Htc
    by (rewrite Hct; by destruct (Post.content p)).
  assert (Js.trim (str (body req !! "title")) ≠ "") as Hb
    by (rewrite Ht; simpl; by rewrite Htrim).
  rewrite (updatePost_found env (logged db _) (with_post req (Some (k, p))) k p
             Hc Hp Htt Htc Hb).
  eexists _, _. split; [done|]. split; [done|].
  cbn [posts with_post body logged]. rewrite Ht, Hct. unfold str, default, id.
  by rewrite Htrim.
Qed.

(** ** Logging in *)

(** X11.  [login] makes its one query and writes nothing; it returns
    exactly when the user stored under the email has a hash that
    [comparePassword] accepts for the password, and what it returns then is
    that user's id, name and email with a token for that id. *)
Theorem login_reads_only `{Collaborators} env db email password :
  ∃ out,
    authService.login email password env db = (out, logged db [UserFindOne email])
    ∧ ((∃ data, out = Return data)
       ↔ ∃ user, UserModel.by_email (users db) email = Some user
                 ∧ comparePassword password (User.password user.2) = true)
    ∧ (∀ user, UserModel.by_email (users db) email = Some user →
               comparePassword password (User.password user.2) = true →
               out = Return (authService.userResponse env user)).
Proof.
  run_auth. destruct (UserModel.by_email (users db) email) as [user|] eqn:Hfind.
  - destruct (comparePassword password (User.password user.2)) eqn:Hcmp; simpl.
    + eexists. split; [done|]. split.
      * split; [intros _; by exists user|intros _; by eexists].
      * by intros user' [= <-] _.
    + eexists. split; [done|]. split.
      * split; [by intros [? ?]|]. intros (user' & [= <-] & ?). congruence.
      * intros user' [= <-] ?. congruence.
  - eexists. split; [done|]. split.
    + split; [by intros [? ?]|]. by intros (? & ? & _).
    + by intros.
Qed.

Lemma by_email_insert_new us k u :
  us !! k = None →
  UserModel.by_email us (User.email u) = None →
  UserModel.by_email (<[k := u]> us) (User.email u) = Some (k, u).
Proof.
  intros Hk Hnone.
  destruct (UserModel.by_email (<[k := u]> us) (User.email u)) as [[k' u']|] eqn:Hfind.
  - apply by_email_Some in Hfind as [Hk' He].
    destruct (decide (k = k')) as [<-|Hne].
    + rewrite lookup_insert_eq in Hk'. by simplify_eq.
    + rewrite lookup_insert_ne in Hk' by done.
      by destruct (proj1 (by_email_None _ _) Hnone k' u').
  - pose proof (proj1 (by_email_None _ _) Hfind k u (lookup_insert_eq _ _ _)). done.
Qed.

(** X12.  With a [comparePassword] that accepts a password against its own
    hash, a [register] that returned is followed by a [login] with the same
    email and password that returns the same id, name and email. *)
Theorem register_then_login `{Collaborators} env db name email password data db' :
  comparePassword password (hashPassword password) = true →
  authService.register name email password env db = (Return data, db') →
  ∀ env2,
    (authService.login email password env2 db').1
    = Return (JObj [("id", JStr (freshId env));
                    ("name", JStr name);
                    ("email", JStr email);
                    ("token", JStr (generateToken (now env2) (freshId env)))])
    ∧ ∃ token, data = JObj [("id", JStr (freshId env));
                            ("name", JStr name);
                            ("email", JStr email);
                            ("token", JStr token)].
Proof.
  intros Hbcrypt Hrun env2. run_auth.
  destruct (UserModel.by_email (users db) email) as [user|] eqn:Hfind; [done|].
  simpl in Hrun. destruct (userValidation name email password); [done|].
  simpl in Hrun. destruct (users db !! freshId env) eqn:Hfresh; [done|].
  simpl in Hrun. injection Hrun as <- <-. simpl.
  rewrite (by_email_insert_new (users db) (freshId env)
             (User.mk name email (hashPassword password)) Hfresh Hfind).
  simpl. rewrite Hbcrypt. simpl. split; [done|]. by eexists.
Qed.

(** ** The form *)

Lemma safeParse_nil title content :
  zod.safeParse title content = []
  ↔ (3 ≤ String.length title ≤ 200)%nat
    ∧ (10 ≤ String.length (Js.trim (postSchemas.stripTags content)))%nat.
Proof.
  assert (content = "" → String.length (Js.trim (postSchemas.stripTags content)) = 0%nat)
    as Hempty by (by intros ->).
  unfold zod.safeParse, zod.title_issues, zod.content_issues.
  repeat case_bool_decide; simpl; split; try done; try lia.
  destruct content; simpl in *; [|lia]. specialize (Hempty eq_refl). lia.
Qed.

Lemma safeParse_agrees_with_postSchema title content :
  postSchemas.postSchema title content = true ↔ zod.safeParse title content = [].
Proof.
  rewrite safeParse_nil. unfold postSchemas.postSchema.
  rewrite !andb_true_iff, !bool_decide_eq_true.
  assert (content = "" → String.length (Js.trim (postSchemas.stripTags content)) = 0%nat)
    as Hempty by (by intros ->).
  split; [lia|]. intros [? ?]. split_and!; try lia.
  destruct content; simpl; [|lia]. specialize (Hempty eq_refl). lia.
Qed.

(** X13.  [handleSubmit] sends the form exactly when the user is logged in,
    the title has 3 to 200 characters and the content keeps at least 10
    characters once its tags are stripped and it is trimmed; what it sends
    is the title and the content as typed, as an update in edit mode and as
    a create otherwise. *)
Theorem handleSubmit_sends_iff isAuthenticated id title content :
  PostForm.handleSubmit isAuthenticated id title content
  = (if Js.truthy id then PostForm.Update (str id) title content
     else PostForm.Create title content)
  ↔ isAuthenticated = true
    ∧ (3 ≤ String.length title ≤ 200)%nat
    ∧ (10 ≤ String.length (Js.trim (postSchemas.stripTags content)))%nat.
Proof.
  rewrite <- safeParse_nil. unfold PostForm.handleSubmit.
  destruct isAuthenticated; simpl.
  - destruct (zod.safeParse title content) as [|e l]; simpl.
    + by split.
    + split; [by destruct (Js.truthy id)|]. by intros [_ ?].
  - split; [by destruct (Js.truthy id)|]. by intros [? _].
Qed.

(** X14.  Among the field errors [handleSubmit] sets, the one for the title
    is never 'Title is required' and the one for the content is never
    'Content is required': a later issue of the same field overwrites them,
    so an empty title shows 'Title must be at least 3 characters' and an
    empty content the message of the ten-character rule. *)
Theorem required_messages_never_shown isAuthenticated id title content errors :
  PostForm.handleSubmit isAuthenticated id title content = PostForm.Invalid errors →
  errors !! "title" ≠ Some "Title is required"
  ∧ errors !! "content" ≠ Some "Content is required"
  ∧ (title = "" → errors !! "title" = Some "Title must be at least 3 characters")
  ∧ (content = "" →
     errors !! "content"
     = Some "Content must be at least 10 characters (excluding HTML tags)").
Proof.
  assert (content = "" → String.length (Js.trim (postSchemas.stripTags content)) = 0%nat)
    as Hempty by (by intros ->).
  assert (title = "" → String.length title = 0%nat) as Htitle by (by intros ->).
  assert ((String.length content < 1)%nat
          → String.length (Js.trim (postSchemas.stripTags content)) = 0%nat) as Hshort
    by (destruct content; simpl; [done|lia]).
  unfold PostForm.handleSubmit.
  destruct isAuthenticated; simpl; [|done].
  destruct (zod.safeParse title content) as [|e l] eqn:Hparse;
    [by destruct (Js.truthy id)|].
  intros [= <-]. rewrite <- Hparse. clear Hparse.
  unfold zod.safeParse, zod.title_issues, zod.content_issues.
  repeat case_bool_decide; try lia; simpl; unfold PostForm.fieldErrors; simpl.
  all: split_and!.
  all: try (intros Hz; first [specialize (Htitle Hz)|specialize (Hempty Hz)]; try lia).
  all: vm_compute; first [reflexivity | intros ?; discriminate].
Qed.

Lemma form_request_body caller id title content :
  body (form_request caller id title content) !! "title" = Some title
  ∧ body (form_request caller id title content) !! "content" = Some content.
Proof.
  unfold form_request, request. simpl. split.
  - apply lookup_insert_eq.
  - rewrite lookup_insert_ne by done. apply lookup_insert_eq.
Qed.

Lemma handleSubmit_sent_inv isAuthenticated id title content :
  PostForm.handleSubmit isAuthenticated id title content
  = (if Js.truthy id then PostForm.Update (str id) title content
     else PostForm.Create title content) →
  zod.safeParse title content = [].
Proof.
  unfold PostForm.handleSubmit. destruct isAuthenticated; simpl.
  - destruct (zod.safeParse title content); [done|]. by destruct (Js.truthy id).
  - by destruct (Js.truthy id).
Qed.

(** X15.  A form that [handleSubmit] sends as a create is answered 201 by
    the server unless its title is all white space, in which case it is
    answered 400: the form's schema does not trim the title, and the
    content it lets through is never refused. *)
Theorem sent_form_is_created_unless_title_blank env db caller title content :
  posts db !! freshId env = None →
  PostForm.handleSubmit true None title content = PostForm.Create title content →
  ∃ res db',
    postController.createPost (form_request caller "" title content) env db
    = (Return res, db')
    ∧ (Js.blank title = false → status res = 201%nat)
    ∧ (Js.blank title = true →
       res = {| status := 400;
                json := failure "Post validation failed: title: Please provide a title" |}).
Proof.
  intros Hfresh Hsent.
  apply (handleSubmit_sent_inv true None) in Hsent. apply safeParse_nil in Hsent
    as [Htitle Hcontent].
  assert (title ≠ "") as Ht0 by (intros ->; simpl in Htitle; lia).
  assert (content ≠ "") as Hc0 by (intros ->; simpl in Hcontent; lia).
  destruct (form_request_body caller "" title content) as [Hbt Hbc].
  unfold postController.createPost, try_catch, mbind, M_bind, bind.
  cbv zeta. rewrite Hbt, Hbc.
  assert (Js.truthy (Some title) = true) as -> by (by destruct title).
  assert (Js.truthy (Some content) = true) as -> by (by destruct content).
  cbn [negb orb str default].
  destruct (Js.blank title) eqn:Hblank.
  - apply trim_empty in Hblank. run. unfold PostModel.set_title.
    rewrite (validate_blank_title _ _ Hblank Hc0). simpl.
    eexists _, _. split; [done|]. by split.
  - assert (Js.trim title ≠ "") as Hb
      by (intros Hb; apply trim_empty in Hb; congruence).
    run. unfold PostModel.set_title. rewrite (validate_ok _ _ Hb Hc0). simpl.
    rewrite Hfresh. simpl. eexists _, _. split; [done|]. by split.
Qed.

(** ** Stripping tags *)

Lemma lacks_app a s b :
  lacks a (s +:+ String b "") = lacks a s && negb (Ascii.eqb a b).
Proof.
  induction s as [|c s IH]; simpl.
  - by rewrite andb_true_r.
  - rewrite IH. by rewrite andb_assoc.
Qed.

Lemma app_snoc h a s : (h +:+ String a "") +:+ s = h +:+ String a s.
Proof. induction h as [|b h IH]; [done|]. exact (f_equal (String b) IH). Qed.

Lemma strip_from_held_open h s :
  lacks ">" s = true → postSchemas.strip_from (Some h) s = h +:+ s.
Proof.
  revert h. induction s as [|a s IH]; intros h Hs.
  - simpl. induction h as [|b h IHh]; [done|]. exact (f_equal (String b) IHh).
  - change (negb (Ascii.eqb ">" a) && lacks ">" s = true) in Hs.
    apply andb_true_iff in Hs as [Ha Hs]. rewrite Ascii.eqb_sym in Ha.
    change (postSchemas.strip_from (Some h) (String a s))
      with (if Ascii.eqb a ">" then postSchemas.strip_from None s
            else postSchemas.strip_from (Some (h +:+ String a "")) s).
    destruct (Ascii.eqb a ">"); [done|]. rewrite (IH _ Hs). apply app_snoc.
Qed.

Lemma stripTags_idempotent_gen s :
  postSchemas.strip_from None (postSchemas.strip_from None s)
  = postSchemas.strip_from None s
  ∧ ∀ u, lacks ">" u = true →
         postSchemas.strip_from None (postSchemas.strip_from (Some (String "<" u)) s)
         = postSchemas.strip_from (Some (String "<" u)) s.
Proof.
  induction s as [|a s [IHn IHs]]; split.
  - done.
  - intros u Hu. simpl. by apply strip_from_held_open.
  - simpl. destruct (Ascii.eqb a "<") eqn:Ha.
    + by apply (IHs "").
    + simpl. by rewrite Ha, IHn.
  - intros u Hu.
    change (postSchemas.strip_from (Some (String "<" u)) (String a s))
      with (if Ascii.eqb a ">" then postSchemas.strip_from None s
            else postSchemas.strip_from (Some (String "<" (u +:+ String a ""))) s).
    destruct (Ascii.eqb a ">") eqn:Ha; [done|].
    apply (IHs (u +:+ String a "")). rewrite lacks_app, Hu.
    rewrite Ascii.eqb_sym. by rewrite Ha.
Qed.

(** X16.  Stripping tags leaves nothing to strip: applied to its own result
    it changes nothing. *)
Theorem stripTags_idempotent s :
  postSchemas.stripTags (postSchemas.stripTags s) = postSchemas.stripTags s.
Proof.
  unfold postSchemas.stripTags.
  destruct (stripTags_idempotent_gen s) as [Hplain _]. exact Hplain.
Qed.

(** ** The page of a post *)

(** X17.  For a post as GET returns it, with its author populated, the
    page takes the logged-in user for the owner exactly when the guard
    would let that user's request on the post through; without a user it
    takes nobody for the owner; and when the author could not be populated
    the test itself throws for every logged-in user. *)
Theorem isOwner_agrees_with_guard env db req k p user :
  castObjectId (params_id req) = Some k →
  posts db !! k = Some p →
  let shown := PostModel.populated (users db) (k, p) in
  (is_Some (users db !! Post.authorId p) →
     PostView.isOwner (Some user) (Some shown) = Some true
     ↔ ∃ req', (authorize (as_caller req (PostView.id user)) env db).1
               = Return (Next req'))
  ∧ (users db !! Post.authorId p = None →
     PostView.isOwner (Some user) (Some shown) = None)
  ∧ PostView.isOwner None (Some shown) = Some false.
Proof.
  intros Hc Hp shown. split_and!; [|by intros Hnone; simpl; rewrite Hnone|done].
  intros [u Hu]. unfold PostView.isOwner. simpl. rewrite Hu. simpl.
  destruct (decide (Post.authorId p = PostView.id user)) as [Ho|Ho].
  - rewrite (authorize_owner env db (as_caller req (PostView.id user)) k p Hc Hp Ho).
    rewrite bool_decide_eq_true_2 by done. simpl.
    split; [intros _; by eexists|done].
  - rewrite (authorize_stranger env db (as_caller req (PostView.id user)) k p Hc Hp Ho).
    rewrite bool_decide_eq_false_2 by congruence. simpl.
    split; [done|by intros [? ?]].
Qed.

(** ** Ownership over time *)

Lemma delete_subset (ps : gmap string Post.doc) k j p :
  delete k ps !! j = Some p → ps !! j = Some p.
Proof. intros Hj. by apply lookup_delete_Some in Hj as [_ Hj]. Qed.

(** X18.  Whatever is requested on whichever of the five routes, a post
    that is stored before and after has the same [authorId] and the same
    [createdAt]. *)
Theorem routes_never_change_owner route env db req k p p' :
  route ∈ routes →
  posts db !! k = Some p →
  posts (route req env db).2 !! k = Some p' →
  Post.authorId p' = Post.authorId p ∧ Post.createdAt p' = Post.createdAt p.
Proof.
  unfold routes. intros Hroute Hp Hp'.
  repeat (apply elem_of_cons in Hroute as [->|Hroute]).
  - rewrite get_all_posts in Hp'. by simplify_eq.
  - rewrite get_one_posts in Hp'. by simplify_eq.
  - destruct (create_posts env db req) as [Heq|(Hfresh & _ & _ & Heq)];
      rewrite Heq in Hp'; [by simplify_eq|].
    destruct (decide (freshId env = k)) as [Hk|Hne];
      [unfold ObjectId in *; rewrite Hk in Hfresh; congruence|].
    rewrite lookup_insert_ne in Hp' by done. by simplify_eq.
  - destruct (put_posts env db req) as [Heq|(j & q & _ & Hq & _ & _ & _ & Heq)];
      rewrite Heq in Hp'; [by simplify_eq|].
    destruct (decide (j = k)) as [->|Hne].
    + rewrite lookup_insert_eq in Hp'. unfold ObjectId in *. by simplify_eq.
    + rewrite lookup_insert_ne in Hp' by done. by simplify_eq.
  - destruct (delete_posts env db req) as [Heq|[j Heq]]; rewrite Heq in Hp'.
    + by simplify_eq.
    + apply delete_subset in Hp'. by simplify_eq.
  - by apply elem_of_nil in Hroute.
Qed.

(** ** The further statements at the sample data *)

Lemma sample_db_well_formed : well_formed_posts sample_db.
Proof.
  intros k p Hk.
  change (({[first_post := alices_post]} : gmap string Post.doc) !! k = Some p) in Hk.
  apply lookup_singleton_Some in Hk as [_ <-]. by vm_compute.
Qed.

(** Alice's request on her post passes the guard. *)
Lemma authorize_passes_iff_owner_witness :
  ∃ req', (authorize (request first_post alice []) sample_env sample_db).1
          = Return (Next req').
Proof.
  destruct (authorize_passes_iff_owner sample_env sample_db (request first_post alice []))
    as (h & db' & Hrun & _ & _ & Hiff & _).
  destruct (proj2 Hiff) as [req' Hnext].
  - exists first_post, alices_post. split_and!; reflexivity.
  - exists req'. by rewrite Hrun, Hnext.
Defined.

(** Alice's update of her post is answered 200. *)
Lemma put_writes_only_on_200_witness :
  ∃ res db',
    router.put (form_request alice first_post "New" "Text") sample_env sample_db
    = (Return res, db')
    ∧ status res = 200%nat.
Proof.
  destruct (put_writes_only_on_200 sample_env sample_db
              (form_request alice first_post "New" "Text"))
    as (res & db' & Hrun & _ & H200 & _).
  exists res, db'. split; [exact Hrun|]. apply H200.
  exists first_post, alices_post. split_and!; try reflexivity; by vm_compute.
Defined.

(** Alice's delete of her post is answered 200 and the post is gone. *)
Lemma delete_removes_exactly_the_post_witness :
  ∃ res db',
    router.delete (request first_post alice []) sample_env sample_db = (Return res, db')
    ∧ status res = 200%nat.
Proof.
  destruct (delete_removes_exactly_the_post sample_env sample_db
              (request first_post alice []))
    as (res & db' & Hrun & _ & H200 & _).
  exists res, db'. split; [exact Hrun|]. apply H200.
  exists first_post, alices_post. split_and!; reflexivity.
Defined.

(** After Alice's delete, Bob's GET of the post is answered 404. *)
Lemma deleted_post_is_gone_witness :
  let out := router.delete (request first_post alice []) sample_env sample_db in
  (router.get_one (request first_post bob []) sample_env out.2).1 = Return not_found.
Proof.
  intros out.
  assert (router.delete (request first_post alice []) sample_env sample_db
          = (Return (response out), out.2)) as Hrun by (vm_compute; reflexivity).
  assert (status (response out) = 200%nat) as Hstatus by reflexivity.
  exact (proj1 (deleted_post_is_gone sample_env sample_db _ _ _ Hrun Hstatus
                  sample_env (request first_post bob []) eq_refl)).
Defined.

(** Alice creates a post; Bob reads it back. *)
Lemma created_post_reads_back_witness :
  let out := postController.createPost (form_request alice "" " Second " "Text")
               sample_env sample_db in
  posts out.2 !! second_post = Some (Post.mk "Second" "Text" alice 9 9)
  ∧ status (response (router.get_one (request second_post bob []) sample_env out.2))
    = 200%nat.
Proof.
  intros out.
  assert (postController.createPost (form_request alice "" " Second " "Text")
            sample_env sample_db
          = (Return (response out), out.2)) as Hrun by (vm_compute; reflexivity).
  assert (status (response out) = 201%nat) as Hstatus by reflexivity.
  destruct (created_post_reads_back sample_env sample_db _ _ _ Hrun Hstatus)
    as (data & _ & Hstored & _ & _ & Hget).
  split; [exact Hstored|].
  specialize (Hget sample_env (request second_post bob []) eq_refl).
  unfold response. by rewrite Hget.
Defined.

(** Alice creates a post; Bob's request on it does not pass the guard. *)
Lemma only_creator_passes_guard_witness :
  let out := postController.createPost (form_request alice "" "Second" "Text")
               sample_env sample_db in
  ¬ ∃ req3, (authorize (request second_post bob []) sample_env out.2).1
            = Return (Next req3).
Proof.
  intros out Hpass.
  assert (postController.createPost (form_request alice "" "Second" "Text")
            sample_env sample_db
          = (Return (response out), out.2)) as Hrun by (vm_compute; reflexivity).
  assert (status (response out) = 201%nat) as Hstatus by reflexivity.
  apply (only_creator_passes_guard sample_env sample_db _ _ _ Hrun Hstatus
           sample_env (request second_post bob []) eq_refl) in Hpass.
  discriminate Hpass.
Defined.

(** Alice's blank-title update leaves her post well formed. *)
Lemma routes_keep_posts_well_formed_witness :
  well_formed_posts
    (router.put (form_request alice first_post "  " "Text") sample_env sample_db).2.
Proof.
  apply (routes_keep_posts_well_formed router.put).
  - unfold routes. do 3 right. left.
  - exact sample_db_well_formed.
Defined.

(** Alice saves her post as it is. *)
Lemma saving_unchanged_post_touches_updatedAt_only_witness :
  ∃ res db',
    router.put (form_request alice first_post "Old" "Text") sample_env sample_db
    = (Return res, db')
    ∧ status res = 200%nat
    ∧ posts db' = <[first_post := Post.mk "Old" "Text" alice 5 9]> (posts sample_db).
Proof.
  apply (saving_unchanged_post_touches_updatedAt_only sample_env sample_db
           (form_request alice first_post "Old" "Text") first_post alices_post
           sample_db_well_formed); reflexivity.
Defined.

(** Alice logs in with her password. *)
Lemma login_reads_only_witness :
  ∃ data,
    authService.login "alice@example.com" "secret" sample_env sample_db
    = (Return data, logged sample_db [UserFindOne "alice@example.com"]).
Proof.
  destruct (login_reads_only sample_env sample_db "alice@example.com" "secret")
    as (out & Hrun & Hiff & _).
  destruct (proj2 Hiff) as [data ->].
  - exists (alice, User.mk "Alice" "alice@example.com" "hash:secret").
    split; reflexivity.
  - by exists data.
Defined.

(** Carol registers, then logs in. *)
Lemma register_then_login_witness :
  let out := authService.register "Carol" "carol@example.com" "pass"
               sample_env sample_db in
  (authService.login "carol@example.com" "pass" (env_at 10 bob) out.2).1
  = Return (JObj [("id", JStr second_post); ("name", JStr "Carol");
                  ("email", JStr "carol@example.com");
                  ("token", JStr "token:000000000000000000000002")]).
Proof.
  intros out.
  assert (∃ data, authService.register "Carol" "carol@example.com" "pass"
                    sample_env sample_db = (Return data, out.2)) as [data Hrun]
    by (eexists; vm_compute; reflexivity).
  exact (proj1 (register_then_login sample_env sample_db "Carol" "carol@example.com"
                  "pass" data out.2 eq_refl Hrun (env_at 10 bob))).
Defined.

(** A logged-in user's form with a long enough title and content is sent. *)
Lemma handleSubmit_sends_iff_witness :
  PostForm.handleSubmit true None "Hello" "<p>Ten letters</p>"
  = PostForm.Create "Hello" "<p>Ten letters</p>".
Proof.
  apply (proj2 (handleSubmit_sends_iff true None "Hello" "<p>Ten letters</p>")).
  split; [reflexivity|]. vm_compute. split_and!; lia.
Defined.

(** An empty form shows the later message of each field. *)
Lemma required_messages_never_shown_witness :
  ∃ errors,
    PostForm.handleSubmit true None "" "" = PostForm.Invalid errors
    ∧ errors !! "title" = Some "Title must be at least 3 characters"
    ∧ errors !! "title" ≠ Some "Title is required".
Proof.
  assert (∃ errors, PostForm.handleSubmit true None "" "" = PostForm.Invalid errors)
    as [errors Hrun] by (eexists; vm_compute; reflexivity).
  exists errors. split; [exact Hrun|].
  destruct (required_messages_never_shown true None "" "" errors Hrun)
    as (Hnever & _ & Hshown & _).
  split; [by apply Hshown|exact Hnever].
Defined.

(** A title of three spaces passes the form and is refused by the server. *)
Lemma sent_form_is_created_unless_title_blank_witness :
  PostForm.handleSubmit true None "   " "<p>Ten letters</p>"
  = PostForm.Create "   " "<p>Ten letters</p>"
  ∧ ∃ res db',
      postController.createPost (form_request alice "" "   " "<p>Ten letters</p>")
        sample_env sample_db
      = (Return res, db')
      ∧ status res = 400%nat.
Proof.
  assert (PostForm.handleSubmit true None "   " "<p>Ten letters</p>"
          = PostForm.Create "   " "<p>Ten letters</p>") as Hsent by reflexivity.
  split; [exact Hsent|].
  destruct (sent_form_is_created_unless_title_blank sample_env sample_db alice
              "   " "<p>Ten letters</p>" eq_refl Hsent)
    as (res & db' & Hrun & _ & Hblank).
  exists res, db'. split; [exact Hrun|]. by rewrite (Hblank eq_refl).
Defined.

(** The page takes Alice, and not Bob, for the owner of Alice's post. *)
Lemma isOwner_agrees_with_guard_witness :
  let shown := PostModel.populated (users sample_db) (first_post, alices_post) in
  PostView.isOwner (Some (PostView.Build_SessionUser alice "Alice" "alice@example.com"))
                   (Some shown) = Some true
  ∧ PostView.isOwner (Some (PostView.Build_SessionUser bob "Bob" "bob@example.com"))
                     (Some shown) ≠ Some true.
Proof.
  intros shown.
  pose proof (isOwner_agrees_with_guard sample_env sample_db (request first_post alice [])
                first_post alices_post) as Hagree.
  split.
  - destruct (Hagree (PostView.Build_SessionUser alice "Alice" "alice@example.com")
                eq_refl eq_refl) as (Hiff & _).
    apply Hiff; [by eexists|]. eexists. by vm_compute.
  - destruct (Hagree (PostView.Build_SessionUser bob "Bob" "bob@example.com")
                eq_refl eq_refl) as (Hiff & _).
    intros Hshown. apply Hiff in Hshown as [req' Hpass]; [|by eexists].
    vm_compute in Hpass. discriminate Hpass.
Defined.

(** Alice's update keeps her as the author of her post. *)
Lemma routes_never_change_owner_witness :
  let out := router.put (form_request alice first_post "New" "Text")
               sample_env sample_db in
  let p' := Post.mk "New" "Text" alice 5 9 in
  posts out.2 !! first_post = Some p'
  ∧ Post.authorId p' = Post.authorId alices_post
  ∧ Post.createdAt p' = Post.createdAt alices_post.
Proof.
  intros out p'.
  assert (posts out.2 !! first_post = Some p') as Hp' by (by vm_compute).
  split; [exact Hp'|].
  apply (routes_never_change_owner router.put sample_env sample_db
           (form_request alice first_post "New" "Text") first_post alices_post p').
  - unfold routes. do 3 right. left.
  - reflexivity.
  - exact Hp'.
Defined.
